(** * Reminder scanning, delivery and summaries of TaskTrackr

    Shallow embedding of
    - [notification-service/services/reminderService.js]
      ([checkAndSendReminders], [sendDailySummaries], [generateUserSummary],
       [sendOverdueAlerts], [scheduleReminder], [cancelReminder],
       [getReminderStats]) together with the [EmailService] it calls,
    - the second reminder scanner of the repository ([checkReminders] and
      [sendTaskReminder]) and [sendDailyDigest], src/unnamed/part_004,
    - [updateTask], [deleteTask], [archiveTask], [bulkUpdateTasks] and
      [syncTasks] of [task-service/src/controllers/taskController.js],
    - the Task schema of [common/models/Task.js]: the reminder sub-document,
      the sync fields and their pre('save') hook, [timestamps], the
      [isOverdue] virtual and [getOverdueTasks].

    Instants are JavaScript time values: milliseconds since the epoch, as [Z].
    The document store is a list of task documents and a list of user
    documents; the outcome of every external effect (mail transport, store
    write, clock reading) is an argument of the operation, so that a
    statement can quantify over all of them. *)

From Stdlib Require Import ZArith List Bool String Lia.
From Stdlib Require Import PrimFloat Uint63 SpecFloat FloatOps.
Import ListNotations.
Open Scope Z_scope.

(** ** Data model *)

Inductive Status := Pending | InProgress | Completed | Cancelled.

(** The [reminder] sub-document. A field absent from the stored document is
    [None]. A MongoDB equality filter such as [{'reminder.notified': false}]
    does not match an absent field, and a [$lte] filter on a date matches
    neither [null] nor an absent field; [None] for a date stands for both.

    [sent] and [datetime] are the fields part_004 reads, [reminder.sent] and
    [reminder.datetime]. They are not paths of the Task schema: every write
    through the Task model (create, [save], update) drops them in strict
    mode, so a document carries them only when something other than this
    model wrote it to the collection. The model keeps them so that the
    scanner of part_004 can be run on such documents too. *)
Record Reminder := mkReminder {
  enabled : option bool;
  reminderDate : option Z;
  notified : option bool;
  sent : option bool;       (* reminder.sent: not in the schema *)
  datetime : option Z       (* reminder.datetime: not in the schema *)
}.

(** A task document. The schema's other fields (title, description,
    priority, category, tags, attachments, durations, completedAt,
    createdAt) are not modelled: no property below reads them. *)
Record Task := mkTask {
  task_id : nat;            (* _id *)
  userId : nat;
  status : Status;
  dueDate : option Z;
  isArchived : bool;
  reminder : Reminder;
  lastModified : Z;         (* set by the pre('save') hook *)
  syncVersion : Z;          (* incremented by the pre('save') hook *)
  updatedAt : Z             (* timestamps: true *)
}.

(** A user document with the fields the scanners populate:
    [email] and [preferences.notifications.email] ([None] when undefined). *)
Record User := mkUser {
  user_id : nat;
  email : option string;
  pref_email : option bool
}.

Record Db := mkDb {
  tasks : list Task;
  users : list User
}.

Definition field_true (b : option bool) : bool :=
  match b with Some true => true | _ => false end.

Definition field_false (b : option bool) : bool :=
  match b with Some false => true | _ => false end.

(** [{ $lte: bound }] on a date field. *)
Definition date_lte (d : option Z) (bound : Z) : bool :=
  match d with Some x => x <=? bound | None => false end.

(** [{ $lt: bound }] on a date field. *)
Definition date_lt (d : option Z) (bound : Z) : bool :=
  match d with Some x => x <? bound | None => false end.

(** [{ $gte: bound }] on a date field. *)
Definition date_gte (d : option Z) (bound : Z) : bool :=
  match d with Some x => bound <=? x | None => false end.

(** [status: { $in: ['pending', 'in-progress'] }] *)
Definition status_open (s : Status) : bool :=
  match s with Pending | InProgress => true | _ => false end.

Definition status_completed (s : Status) : bool :=
  match s with Completed => true | _ => false end.

Definition optZ_eqb (a b : option Z) : bool :=
  match a, b with
  | Some x, Some y => Z.eqb x y
  | None, None => true
  | _, _ => false
  end.

Definition optb_eqb (a b : option bool) : bool :=
  match a, b with
  | Some x, Some y => Bool.eqb x y
  | None, None => true
  | _, _ => false
  end.

(** [.populate('userId', ...)]: the owner document, or [null]. *)
Definition populate (db : Db) (t : Task) : option User :=
  find (fun u => Nat.eqb (user_id u) (userId t)) (users db).

(** ** Saving a fetched document

    Mongoose's [doc.save()] on a fetched document sends
    [updateOne({_id}, {$set: <paths it changed>})] and fails with a
    DocumentNotFoundError when no document with that [_id] is left. Two
    pre('save') hooks run first, in the order the schema registered them:
    the [timestamps] hook, set up by the Schema constructor, which sets
    [updatedAt] to the current time when the document is new or some path
    is already modified; then the hook of Task.js, which sets
    [lastModified = new Date()] and [syncVersion = this.syncVersion + 1]
    from the fetched value. A [SaveClock] holds the two readings of the
    clock. [_id] is unique in the collection, so writing every document
    with the id writes the one [updateOne] finds. *)

Record SaveClock := mkClock {
  ts_now : Z;      (* the timestamps hook's current time *)
  hook_now : Z     (* new Date() in the hook of Task.js *)
}.

Definition save_task (w : Task -> Task) (db : Db) (id : nat) : option Db :=
  if existsb (fun x => Nat.eqb (task_id x) id) (tasks db)
  then Some {| tasks := map (fun x => if Nat.eqb (task_id x) id then w x else x)
                            (tasks db);
               users := users db |}
  else None.

(** [checkAndSendReminders]: [task.reminder.notified = true; await
    task.save()] with the fetched snapshot [snap]. [notified] is a schema
    path, so the save writes it, [updatedAt], [lastModified] and
    [syncVersion]. Nothing in the write depends on the stored
    [reminderDate] or [notified]. *)
Definition set_notified (c : SaveClock) (snap x : Task) : Task :=
  {| task_id := task_id x; userId := userId x; status := status x;
     dueDate := dueDate x; isArchived := isArchived x;
     reminder := {| enabled := enabled (reminder x);
                    reminderDate := reminderDate (reminder x);
                    notified := Some true;
                    sent := sent (reminder x);
                    datetime := datetime (reminder x) |};
     lastModified := hook_now c;
     syncVersion := syncVersion snap + 1;
     updatedAt := ts_now c |}.

Definition markNotified (db : Db) (c : SaveClock) (snap : Task) : option Db :=
  save_task (set_notified c snap) db (task_id snap).

(** [checkReminders]: [task.reminder.sent = true; await task.save()].
    [reminder.sent] is not a schema path: strict mode keeps the assignment
    out of the document, no path is modified, the timestamps hook leaves
    [updatedAt] alone and the save writes only the fields of the hook of
    Task.js. *)
Definition set_hook_fields (c : SaveClock) (snap x : Task) : Task :=
  {| task_id := task_id x; userId := userId x; status := status x;
     dueDate := dueDate x; isArchived := isArchived x;
     reminder := reminder x;
     lastModified := hook_now c;
     syncVersion := syncVersion snap + 1;
     updatedAt := updatedAt x |}.

Definition markSent (db : Db) (c : SaveClock) (snap : Task) : option Db :=
  save_task (set_hook_fields c snap) db (task_id snap).

(** ** One scan cycle

    A cycle fetches the due set with its owners populated, then handles each
    task: the handler yields the notifier calls it made and whether the task
    reaches the marking step. [save t] is the outcome of the marking save of
    the job holding snapshot [t]: [None] when the store rejects it
    (connection loss, ...), [Some c] when it is sent with clock readings [c];
    it still fails when the document is gone. Each per-task job has its own
    [try]/[catch]; a throw inside it skips the rest of that job only.
    [checkAndSendReminders] runs the jobs concurrently ([map(async ...)] and
    [Promise.allSettled]); each job writes only its own document, so running
    them in order gives the same final store. *)

Inductive Event :=
  | Notify (id : nat) (ok : bool)   (* notifier invoked; [ok]: delivery result *)
  | Marked (id : nat)               (* checkAndSendReminders' save written *)
  | Saved (id : nat).               (* checkReminders' save written *)

Definition Handler := option User -> Task -> list Event * bool.

(** The document a marking save leaves, from its clock readings, the job's
    snapshot and the stored document. *)
Definition Write := SaveClock -> Task -> Task -> Task.

Fixpoint dispatch_all (handle : Handler) (write : Write) (ev : nat -> Event)
    (save : Task -> option SaveClock)
    (sel : list (option User * Task)) (db : Db) (log : list Event)
    : Db * list Event :=
  match sel with
  | [] => (db, log)
  | (u, t) :: rest =>
      let '(evs, mark) := handle u t in
      let '(db', evm) :=
        match (if mark then save t else None) with
        | Some c =>
            match save_task (write c t) db (task_id t) with
            | Some db' => (db', [ev (task_id t)])
            | None => (db, [])
            end
        | None => (db, [])
        end in
      dispatch_all handle write ev save rest db' (log ++ evs ++ evm)
  end.

Definition run_cycle (due : Task -> bool) (handle : Handler) (write : Write)
    (ev : nat -> Event) (save : Task -> option SaveClock) (db : Db)
    : Db * list Event :=
  let sel := map (fun t => (populate db t, t)) (filter due (tasks db)) in
  dispatch_all handle write ev save sel db [].

(** *** notification-service: [ReminderService.checkAndSendReminders] *)

(** [new Date(now.getTime() + 5 * 60 * 1000)] *)
Definition reminderWindow (now : Z) : Z := now + 5 * 60 * 1000.

Definition due_ns (now : Z) (t : Task) : bool :=
  field_true (enabled (reminder t)) &&
  field_false (notified (reminder t)) &&
  date_lte (reminderDate (reminder t)) (reminderWindow now) &&
  status_open (status t) &&
  negb (isArchived t).

(** [user.preferences?.notifications?.email !== false] *)
Definition wants_email_ns (u : User) : bool :=
  match pref_email u with Some false => false | _ => true end.

(** [EmailService.sendEmail] catches every transport error and returns
    [{ success: false, ... }]; [sendTaskReminder] returns that object and
    [checkAndSendReminders] ignores it. [deliver t] is the [success] field.
    A [null] owner makes [user.preferences] throw a TypeError, caught by the
    job before the marking step. *)
Definition handle_ns (deliver : Task -> bool) : Handler :=
  fun u t =>
    match u with
    | None => ([], false)
    | Some usr =>
        ((if wants_email_ns usr then [Notify (task_id t) (deliver t)] else []),
         true)
    end.

Definition checkAndSendReminders (now : Z) (deliver : Task -> bool)
    (save : Task -> option SaveClock) (db : Db) : Db * list Event :=
  run_cycle (due_ns now) (handle_ns deliver) set_notified Marked save db.

(** *** part_004: [checkReminders] and [sendTaskReminder]

    The filter is [{'reminder.enabled': true, 'reminder.sent': false,
    'reminder.datetime': {$lte: now}, status: {$ne: 'completed'},
    isArchived: false}]. With [strictQuery] off (the default of Mongoose 7)
    the two paths outside the schema are sent to MongoDB as they are. *)

Definition due_cr (now : Z) (t : Task) : bool :=
  field_true (enabled (reminder t)) &&
  field_false (sent (reminder t)) &&
  date_lte (datetime (reminder t)) now &&
  negb (status_completed (status t)) &&
  negb (isArchived t).

(** [!user || !user.email]: throws 'User email not found'. *)
Definition has_email (u : User) : bool :=
  match email u with Some e => negb (String.eqb e "") | None => false end.

(** [!user.preferences?.notifications?.email]: disabled unless [true]. *)
Definition wants_email_cr (u : User) : bool := field_true (pref_email u).

(** [sendEmail] of part_004 rethrows every transport error, and
    [sendTaskReminder] rethrows it to [checkReminders]; [deliver t = false]
    is such a throw, which skips the marking step. *)
Definition handle_cr (deliver : Task -> bool) : Handler :=
  fun u t =>
    match u with
    | None => ([], false)
    | Some usr =>
        if negb (has_email usr) then ([], false)
        else if negb (wants_email_cr usr) then ([], true)
        else if deliver t then ([Notify (task_id t) true], true)
        else ([Notify (task_id t) false], false)
    end.

Definition checkReminders (now : Z) (deliver : Task -> bool)
    (save : Task -> option SaveClock) (db : Db) : Db * list Event :=
  run_cycle (due_cr now) (handle_cr deliver) set_hook_fields Saved save db.

(** ** Update documents

    The keys of an update document the model carries. A key the body
    leaves out is [None]. *)

Record ReminderBody := mkReminderBody {
  rb_enabled : option bool;              (* None: key absent *)
  rb_reminderDate : option (option Z);   (* None: key absent; Some None: null *)
  rb_notified : option bool
}.

Record UpdateBody := mkUpdateBody {
  ub_userId : option nat;
  ub_status : option Status;
  ub_dueDate : option (option Z);
  ub_isArchived : option bool;
  ub_reminder : option ReminderBody
}.

(** An update document as a request sends it: its top-level keys and the
    keys of its [$set] operator, if any. *)
Record UpdateDoc := mkUpdateDoc {
  upd_top : UpdateBody;
  upd_set : option UpdateBody
}.

Definition pick {A : Type} (a b : option A) : option A :=
  match a with Some _ => a | None => b end.

(** Mongoose casts the document to a single [$set]: each top-level key is
    moved into it, replacing a [$set] key of the same name. *)
Definition effective_set (d : UpdateDoc) : UpdateBody :=
  match upd_set d with
  | None => upd_top d
  | Some s =>
      {| ub_userId := pick (ub_userId (upd_top d)) (ub_userId s);
         ub_status := pick (ub_status (upd_top d)) (ub_status s);
         ub_dueDate := pick (ub_dueDate (upd_top d)) (ub_dueDate s);
         ub_isArchived := pick (ub_isArchived (upd_top d)) (ub_isArchived s);
         ub_reminder := pick (ub_reminder (upd_top d)) (ub_reminder s) |}
  end.

(** [delete updates.userId]: removes the top-level key only. *)
Definition delete_userId (d : UpdateDoc) : UpdateDoc :=
  {| upd_top := {| ub_userId := None;
                   ub_status := ub_status (upd_top d);
                   ub_dueDate := ub_dueDate (upd_top d);
                   ub_isArchived := ub_isArchived (upd_top d);
                   ub_reminder := ub_reminder (upd_top d) |};
     upd_set := upd_set d |}.

(** [$set] of the nested [reminder] object replaces the stored
    sub-document with exactly the given schema keys; a key left out is
    absent afterwards, and keys outside the schema ([sent], [datetime])
    are dropped by strict mode. *)
Definition set_reminder_object (b : ReminderBody) : Reminder :=
  {| enabled := rb_enabled b;
     reminderDate := match rb_reminderDate b with Some d => d | None => None end;
     notified := rb_notified b;
     sent := None;
     datetime := None |}.

(** The effect of a [$set] on one document; [timestamps] adds
    [$set: {updatedAt: now}] to every [findOneAndUpdate] and [updateMany].
    No save hook runs, so [lastModified] and [syncVersion] stay. *)
Definition apply_update (now : Z) (b : UpdateBody) (t : Task) : Task :=
  {| task_id := task_id t;
     userId := match ub_userId b with Some u => u | None => userId t end;
     status := match ub_status b with Some s => s | None => status t end;
     dueDate := match ub_dueDate b with Some d => d | None => dueDate t end;
     isArchived := match ub_isArchived b with Some a => a | None => isArchived t end;
     reminder := match ub_reminder b with
                 | Some rb => set_reminder_object rb
                 | None => reminder t
                 end;
     lastModified := lastModified t;
     syncVersion := syncVersion t;
     updatedAt := now |}.

(** ** Editing a task: [taskController.updateTask]

    [delete updates.userId] (and [_id], [createdAt], [syncVersion], which
    the model does not carry), then
    [Task.findOneAndUpdate({ _id: taskId, userId }, updates, ...)] at
    instant [now]. Returns the new store and whether a task matched
    (otherwise the handler answers 404 and the store is unchanged). *)
Definition updateTask (db : Db) (now : Z) (taskId uid : nat) (d : UpdateDoc)
    : Db * bool :=
  let b := effective_set (delete_userId d) in
  let sel x := Nat.eqb (task_id x) taskId && Nat.eqb (userId x) uid in
  if existsb sel (tasks db)
  then ({| tasks := map (fun x => if sel x then apply_update now b x else x) (tasks db);
           users := users db |}, true)
  else (db, false).

(** ** [scheduleReminder] and [cancelReminder]

    The bodies run in an exception monad: a rejected store promise or a
    [throw] is [Throw msg], [msg] being the [message] of the Error. *)

Inductive Exc (A : Type) : Type :=
  | Ok (a : A)
  | Throw (msg : string).
Arguments Ok {A} a.
Arguments Throw {A} msg.

Definition exc_bind {A B : Type} (m : Exc A) (k : A -> Exc B) : Exc B :=
  match m with Ok a => k a | Throw e => Throw e end.

Notation "x <- m ;; k" := (exc_bind m (fun x => k))
  (at level 61, m at next level, right associativity).

(** [try { body } catch (error) { handler(error.message) }] *)
Definition try_catch {A : Type} (body : Exc A) (handler : string -> A) : A :=
  match body with Ok a => a | Throw e => handler e end.

(** Store failures: [Some msg] makes the operation reject with an Error of
    message [msg] (connection loss, CastError of a malformed id, ...). *)
Record Faults := mkFaults {
  find_error : option string;
  save_error : option string
}.

(** [Task.findById(taskId)] *)
Definition findById (f : Faults) (db : Db) (taskId : nat) : Exc (option Task) :=
  match find_error f with
  | Some e => Throw e
  | None => Ok (find (fun x => Nat.eqb (task_id x) taskId) (tasks db))
  end.

(** Whether the three assignments [task.reminder.enabled = en],
    [task.reminder.reminderDate = rd], [task.reminder.notified = nt] change
    a value of the fetched reminder [r]: assigning the value a path already
    holds does not mark it modified. *)
Definition reminder_changed (r : Reminder) (en : option bool) (rd : option Z)
    (nt : option bool) : bool :=
  negb (optb_eqb (enabled r) en && optZ_eqb (reminderDate r) rd &&
        optb_eqb (notified r) nt).

(** The stored document [x] after [task.save()] of the fetched snapshot
    [snap] with the three assignments: the reminder paths, [updatedAt] when
    one of them changed, and the hook's [lastModified] and [syncVersion]. *)
Definition reminder_saved (c : SaveClock) (snap : Task) (en : option bool)
    (rd : option Z) (nt : option bool) (x : Task) : Task :=
  {| task_id := task_id x; userId := userId x; status := status x;
     dueDate := dueDate x; isArchived := isArchived x;
     reminder := {| enabled := en; reminderDate := rd; notified := nt;
                    sent := sent (reminder x); datetime := datetime (reminder x) |};
     lastModified := hook_now c;
     syncVersion := syncVersion snap + 1;
     updatedAt := if reminder_changed (reminder snap) en rd nt
                  then ts_now c else updatedAt x |}.

Definition save_reminder (f : Faults) (c : SaveClock) (db : Db) (snap : Task)
    (en : option bool) (rd : option Z) (nt : option bool) : Exc Db :=
  match save_error f with
  | Some e => Throw e
  | None =>
      match save_task (reminder_saved c snap en rd nt) db (task_id snap) with
      | Some db' => Ok db'
      | None => Throw "No document found for query"
      end
  end.

Record OpResult := mkOpResult {
  success : bool;
  message : string;
  error : option string;
  result_reminderDate : option Z
}.

(** [c]: the clock readings of the operation's [save]. *)
Definition scheduleReminder (f : Faults) (c : SaveClock) (db : Db) (taskId : nat)
    (rd : Z) : OpResult * Db :=
  try_catch
    (task <- findById f db taskId ;;
     match task with
     | None => Throw "Task not found"
     | Some t =>
         db' <- save_reminder f c db t (Some true) (Some rd) (Some false) ;;
         Ok ({| success := true; message := "Reminder scheduled successfully";
                error := None; result_reminderDate := Some rd |}, db')
     end)
    (fun e => ({| success := false; message := "Failed to schedule reminder";
                  error := Some e; result_reminderDate := None |}, db)).

Definition cancelReminder (f : Faults) (c : SaveClock) (db : Db) (taskId : nat)
    : OpResult * Db :=
  try_catch
    (task <- findById f db taskId ;;
     match task with
     | None => Throw "Task not found"
     | Some t =>
         db' <- save_reminder f c db t (Some false) None (Some false) ;;
         Ok ({| success := true; message := "Reminder cancelled successfully";
                error := None; result_reminderDate := None |}, db')
     end)
    (fun e => ({| success := false; message := "Failed to cancel reminder";
                  error := Some e; result_reminderDate := None |}, db)).

(** ** [generateUserSummary]

    JavaScript [Date]s in local time, the time zone being a fixed offset
    [tz] (milliseconds east of UTC). [setHours h m s ms] moves a date to the
    given time of its own local day. *)

Definition day_ms : Z := 24 * 60 * 60 * 1000.

Definition setHours (tz t h m s ms : Z) : Z :=
  t - (t + tz) mod day_ms + (((h * 60 + m) * 60 + s) * 1000 + ms).

(** A date argument placed in a query filter: a fresh [Date] value, or the
    [today] object itself. Mongoose keeps the filter object it is given and
    casts it when the query executes, which is after the whole array literal
    of [Promise.all] has been evaluated; a reference to [today] is read then. *)
Inductive DateArg := DLit (t : Z) | DToday.

Definition deref (today : Z) (a : DateArg) : Z :=
  match a with DLit t => t | DToday => today end.

(** The date arguments of the summary's filters, evaluated left to right
    with the [today] object threaded as state:
    [{ $lt: today }] for overdue, then
    [$gte: new Date(today.setHours(0, 0, 0, 0))] and
    [$lt: new Date(today.setHours(23, 59, 59, 999))] for today.
    The last component is the value [today] holds once the array is built. *)
Definition summary_dates (tz now : Z) : DateArg * DateArg * DateArg * Z :=
  let today := now in
  let overdue_lt := DToday in
  let today := setHours tz today 0 0 0 0 in
  let today_gte := DLit today in
  let today := setHours tz today 23 59 59 999 in
  let today_lt := DLit today in
  (overdue_lt, today_gte, today_lt, today).

(** [Task.countDocuments(filter)] over the tasks of one user. *)
Definition countDocuments (db : Db) (uid : nat) (p : Task -> bool) : Z :=
  Z.of_nat (List.length (filter (fun t => Nat.eqb (userId t) uid && p t) (tasks db))).

(** JavaScript numbers: [Z] to binary64 is exact below 2^53, which a
    document count is. *)
Definition number_of_Z (z : Z) : float := PrimFloat.of_uint63 (Uint63.of_Z z).

(** [Math.round x]: the integer closest to [x], ties towards +infinity, that
    is floor(x + 1/2), computed exactly from the binary64 value m * 2^e.
    Infinities and NaN do not reach it (the divisor is positive). *)
Definition math_round (x : float) : Z :=
  match Prim2SF x with
  | S754_finite s m e =>
      let v := if s then Z.neg m else Z.pos m in
      if 0 <=? e then Z.shiftl v e
      else Z.shiftr (v + Z.shiftl 1 (- e - 1)) (- e)
  | _ => 0
  end.

(** [totalTasks > 0 ? Math.round((completedTasks / totalTasks) * 100) : 0] *)
Definition completionRate (completedTasks totalTasks : Z) : Z :=
  if 0 <? totalTasks
  then math_round (PrimFloat.mul (PrimFloat.div (number_of_Z completedTasks)
                                                 (number_of_Z totalTasks))
                                 (number_of_Z 100))
  else 0.

(** The numeric fields of the returned summary ([upcomingTasks] is a
    separate [find] not modelled here). *)
Record Summary := mkSummary {
  totalTasks : Z;
  completedTasks : Z;
  pendingTasks : Z;
  overdueTasks : Z;
  todayTasks : Z;
  summary_completionRate : Z
}.

Definition generateUserSummary (tz now : Z) (db : Db) (uid : nat) : Summary :=
  let '(overdue_lt, today_gte, today_lt, today) := summary_dates tz now in
  let active t := negb (isArchived t) in
  let total := countDocuments db uid active in
  let completed := countDocuments db uid
                     (fun t => status_completed (status t) && active t) in
  let pending := countDocuments db uid
                   (fun t => match status t with Pending => active t | _ => false end) in
  let inProgress := countDocuments db uid
                   (fun t => match status t with InProgress => active t | _ => false end) in
  let overdue := countDocuments db uid
                   (fun t => date_lt (dueDate t) (deref today overdue_lt) &&
                             status_open (status t) && active t) in
  let todayN := countDocuments db uid
                  (fun t => date_gte (dueDate t) (deref today today_gte) &&
                            date_lt (dueDate t) (deref today today_lt) &&
                            status_open (status t) && active t) in
  {| totalTasks := total; completedTasks := completed;
     pendingTasks := pending + inProgress; overdueTasks := overdue;
     todayTasks := todayN;
     summary_completionRate := completionRate completed total |}.

(** ** [ReminderService.getReminderStats]

    Four [countDocuments] over the whole collection (every user, archived
    or not) and a percentage with the same expression shape as the
    summary's rate, [total > 0 ? Math.round((sent / total) * 100) : 0]. *)

Definition countAll (db : Db) (p : Task -> bool) : Z :=
  Z.of_nat (List.length (filter p (tasks db))).

Record ReminderStats := mkReminderStats {
  totalReminders : Z;
  activeReminders : Z;
  sentReminders : Z;
  overdueReminders : Z;
  reminderEfficiency : Z
}.

Definition getReminderStats (now : Z) (db : Db) : ReminderStats :=
  let total := countAll db (fun t => field_true (enabled (reminder t))) in
  let active := countAll db (fun t => field_true (enabled (reminder t)) &&
                                      field_false (notified (reminder t))) in
  let sent := countAll db (fun t => field_true (enabled (reminder t)) &&
                                    field_true (notified (reminder t))) in
  let overdue := countAll db (fun t => field_true (enabled (reminder t)) &&
                                       date_lt (reminderDate (reminder t)) now &&
                                       field_false (notified (reminder t))) in
  {| totalReminders := total; activeReminders := active;
     sentReminders := sent; overdueReminders := overdue;
     reminderEfficiency := completionRate sent total |}.

(** ** Overdue tasks in [common/models/Task.js] *)

(** The [isOverdue] virtual:
    [!this.dueDate || status completed or cancelled -> false],
    otherwise [new Date() > this.dueDate]. *)
Definition isOverdue (now : Z) (t : Task) : bool :=
  match dueDate t with
  | None => false
  | Some d =>
      match status t with
      | Completed | Cancelled => false
      | _ => d <? now
      end
  end.

(** The static [getOverdueTasks(userId)]: [dueDate < now], status pending
    or in-progress, not archived. *)
Definition getOverdueTasks (now : Z) (db : Db) (uid : nat) : list Task :=
  filter (fun t => Nat.eqb (userId t) uid && date_lt (dueDate t) now &&
                   status_open (status t) && negb (isArchived t))
         (tasks db).

(** ** [ReminderService.sendOverdueAlerts]

    The aggregation: [$match] the overdue tasks, [$group] them by [userId]
    ([$push] keeps the order in which documents arrive; the order of the
    groups themselves is unspecified, the model lists them by first
    appearance and no property below depends on it), [$lookup] the
    user, [$unwind] (a group without a user document is dropped), [$match]
    [{'user.preferences.notifications.email': {$ne: false}}]. One alert is
    then sent per remaining group. *)

Definition overdue_match (now : Z) (t : Task) : bool :=
  date_lt (dueDate t) now && status_open (status t) && negb (isArchived t).

Fixpoint add_to_group (uid : nat) (t : Task) (gs : list (nat * list Task))
    : list (nat * list Task) :=
  match gs with
  | [] => [(uid, [t])]
  | (k, ts) :: rest =>
      if Nat.eqb k uid then (k, ts ++ [t]) :: rest
      else (k, ts) :: add_to_group uid t rest
  end.

Definition group_by_user (ts : list Task) : list (nat * list Task) :=
  fold_left (fun gs t => add_to_group (userId t) t gs) ts [].

Definition find_user (db : Db) (uid : nat) : option User :=
  find (fun u => Nat.eqb (user_id u) uid) (users db).

(** The alerts, as (recipient, overdue tasks) pairs. *)
Definition sendOverdueAlerts (now : Z) (db : Db) : list (User * list Task) :=
  flat_map (fun g =>
              match find_user db (fst g) with
              | Some u => if wants_email_ns u then [(u, snd g)] else []
              | None => []
              end)
           (group_by_user (filter (overdue_match now) (tasks db))).

(** ** [ReminderService.sendDailySummaries]

    [User.find({'preferences.notifications.email': {$ne: false}})], then a
    summary per user, mailed only when [summary.totalTasks > 0]. The
    recipients and the summaries they are sent. *)
Definition sendDailySummaries (tz now : Z) (db : Db) : list (User * Summary) :=
  flat_map (fun u =>
              if wants_email_ns u then
                let s := generateUserSummary tz now db (user_id u) in
                if 0 <? totalTasks s then [(u, s)] else []
              else [])
           (users db).

(** ** [sendDailyDigest] (part_004)

    [today] and [tomorrow] are Date objects; [tomorrow.setDate(+1)] is the
    same local time one day later (the fixed offset [tz] has no daylight
    saving). The filter objects are built left to right: the first mutates
    [today] to 00:00 and then to 23:59:59.999, the third holds [today]
    itself. [None]: no digest (no user, email preference not [true], or
    nothing to report); otherwise the due-today, due-tomorrow and overdue
    lists of the e-mail. *)
Definition sendDailyDigest (tz now : Z) (db : Db) (uid : nat)
    : option (list Task * list Task * list Task) :=
  match find_user db uid with
  | None => None
  | Some u =>
      if negb (wants_email_cr u) then None else
      let today := now in
      let tomorrow := now + day_ms in
      let today := setHours tz today 0 0 0 0 in
      let today_gte := today in
      let today := setHours tz today 23 59 59 999 in
      let today_lt := today in
      let tomorrow := setHours tz tomorrow 0 0 0 0 in
      let tomorrow_gte := tomorrow in
      let tomorrow := setHours tz tomorrow 23 59 59 999 in
      let tomorrow_lt := tomorrow in
      let mine t := Nat.eqb (userId t) uid &&
                    negb (status_completed (status t)) && negb (isArchived t) in
      let dueTodayTasks :=
        filter (fun t => mine t && date_gte (dueDate t) today_gte &&
                         date_lt (dueDate t) today_lt) (tasks db) in
      let dueTomorrowTasks :=
        filter (fun t => mine t && date_gte (dueDate t) tomorrow_gte &&
                         date_lt (dueDate t) tomorrow_lt) (tasks db) in
      let overdueTasks :=
        filter (fun t => mine t && date_lt (dueDate t) today) (tasks db) in
      match dueTodayTasks, dueTomorrowTasks, overdueTasks with
      | [], [], [] => None
      | _, _, _ => Some (dueTodayTasks, dueTomorrowTasks, overdueTasks)
      end
  end.


(** ** More of [taskController]: archive, delete, bulk update, sync *)

(** [archiveTask]: [findOneAndUpdate({ _id: taskId, userId },
    { isArchived: archive })] at instant [now], the same store step as
    [updateTask] with a document holding only [isArchived]. [Some message]
    on success, [None] for the 404 answer. *)
Definition archiveTask (db : Db) (now : Z) (taskId uid : nat) (archive : bool)
    : Db * option string :=
  let '(db', found) :=
    updateTask db now taskId uid
      (mkUpdateDoc (mkUpdateBody None None None (Some archive) None) None) in
  if found
  then (db', Some (if archive then "Task archived successfully"
                   else "Task unarchived successfully")%string)
  else (db', None).

(** [deleteTask]: [findOneAndDelete({ _id: taskId, userId })]; the flag
    is whether a document was found (otherwise 404). *)
Definition deleteTask (db : Db) (taskId uid : nat) : Db * bool :=
  let sel x := Nat.eqb (task_id x) taskId && Nat.eqb (userId x) uid in
  if existsb sel (tasks db)
  then ({| tasks := filter (fun x => negb (sel x)) (tasks db); users := users db |}, true)
  else (db, false).

(** Structural equality of task documents, for [modifiedCount]: MongoDB
    counts a matched document as modified when the update changes it. *)
Definition status_eqb (a b : Status) : bool :=
  match a, b with
  | Pending, Pending | InProgress, InProgress
  | Completed, Completed | Cancelled, Cancelled => true
  | _, _ => false
  end.

Definition reminder_eqb (a b : Reminder) : bool :=
  optb_eqb (enabled a) (enabled b) &&
  optZ_eqb (reminderDate a) (reminderDate b) &&
  optb_eqb (notified a) (notified b) &&
  optb_eqb (sent a) (sent b) &&
  optZ_eqb (datetime a) (datetime b).

Definition task_eqb (a b : Task) : bool :=
  Nat.eqb (task_id a) (task_id b) && Nat.eqb (userId a) (userId b) &&
  status_eqb (status a) (status b) && optZ_eqb (dueDate a) (dueDate b) &&
  Bool.eqb (isArchived a) (isArchived b) &&
  reminder_eqb (reminder a) (reminder b) &&
  Z.eqb (lastModified a) (lastModified b) &&
  Z.eqb (syncVersion a) (syncVersion b) &&
  Z.eqb (updatedAt a) (updatedAt b).

Inductive Response :=
  | ErrorResponse (code : Z) (msg : string)
  | BulkOk (modifiedCount matchedCount : Z).

(** The outcome of the [updateMany] write. [updateMany] is not atomic: when
    it rejects (a write error part-way, a write-concern error after all
    documents were written, a validation or cast error before any), the
    matched documents whose id satisfies [applied] have been updated. *)
Inductive WriteOutcome :=
  | WriteOk
  | WriteFail (msg : string) (applied : nat -> bool).

(** [bulkUpdateTasks] at instant [now]. [taskIds]: [None] when the key is
    missing or not an array. [updates]: [None] when the key is missing, so
    that [delete updates.userId] throws a TypeError, answered with a 500. *)
Definition bulkUpdateTasks (db : Db) (now : Z) (uid : nat)
    (taskIds : option (list nat)) (updates : option UpdateDoc) (w : WriteOutcome)
    : Db * Response :=
  match taskIds with
  | None | Some [] => (db, ErrorResponse 400 "Task IDs are required")
  | Some ids =>
      match updates with
      | None => (db, ErrorResponse 500 "Failed to update tasks")
      | Some d =>
          let b := effective_set (delete_userId d) in
          let sel x := existsb (Nat.eqb (task_id x)) ids && Nat.eqb (userId x) uid in
          match w with
          | WriteOk =>
              let matched := filter sel (tasks db) in
              let modified :=
                filter (fun x => negb (task_eqb (apply_update now b x) x)) matched in
              ({| tasks := map (fun x => if sel x then apply_update now b x else x)
                               (tasks db);
                  users := users db |},
               BulkOk (Z.of_nat (List.length modified)) (Z.of_nat (List.length matched)))
          | WriteFail _ applied =>
              ({| tasks := map (fun x => if sel x && applied (task_id x)
                                         then apply_update now b x else x) (tasks db);
                  users := users db |},
               ErrorResponse 500 "Failed to update tasks")
          end
      end
  end.

(** [syncTasks] *)

Inductive ChangeType := CCreate | CUpdate | CDelete | COther.

Record Change := mkChange {
  ch_type : ChangeType;
  ch_id : option nat;        (* change._id *)
  ch_tempId : option nat;    (* change.tempId *)
  ch_data_id : option nat;   (* change.data._id, for a create *)
  ch_data : UpdateDoc        (* the other keys of change.data *)
}.

Inductive SyncResult :=
  | Created (id : nat) (tempId : option nat)
  | Updated (id : option nat)
  | Deleted (id : option nat)
  | SyncError (id : option nat) (msg : string).

(** [new Task({ ...change.data, userId })] and its [save()] with clock
    readings [c]: the schema defaults (status pending, no due date, not
    archived, reminder disabled and not notified, [syncVersion] 1) under
    the top-level keys of [data]; the spread's [userId] is replaced by the
    caller's, and a [$set] key or a reminder key outside the schema is
    dropped. The document is new, so the timestamps hook sets [updatedAt];
    the hook of Task.js sets [lastModified] and makes [syncVersion] 2. *)
Definition new_task (id uid : nat) (c : SaveClock) (b : UpdateBody) : Task :=
  {| task_id := id; userId := uid;
     status := match ub_status b with Some s => s | None => Pending end;
     dueDate := match ub_dueDate b with Some d => d | None => None end;
     isArchived := match ub_isArchived b with Some a => a | None => false end;
     reminder :=
       match ub_reminder b with
       | Some rb =>
           {| enabled := Some (match rb_enabled rb with Some e => e | None => false end);
              reminderDate := match rb_reminderDate rb with Some d => d | None => None end;
              notified := Some (match rb_notified rb with Some n => n | None => false end);
              sent := None; datetime := None |}
       | None => {| enabled := Some false; reminderDate := None; notified := Some false;
                    sent := None; datetime := None |}
       end;
     lastModified := hook_now c;
     syncVersion := 2;
     updatedAt := ts_now c |}.

(** A fresh ObjectId: one that no stored document carries. *)
Definition fresh_id (db : Db) : nat := S (fold_right Nat.max 0%nat (map task_id (tasks db))).

(** A filter [{ _id: change._id, userId }]; an undefined [_id] is sent as
    [null], which no document's [_id] equals. *)
Definition owned (id : option nat) (uid : nat) (x : Task) : bool :=
  match id with
  | Some i => Nat.eqb (task_id x) i && Nat.eqb (userId x) uid
  | None => false
  end.

(** One change, inside its [try]. [fault]: the store operation of the
    change rejects with that message (validation, cast or connection
    error). A create whose [data._id] is already stored fails with a
    duplicate key error. [c]: the clock readings of the change's write. An
    update passes [change.data] to [findOneAndUpdate] as it is. *)
Definition sync_change (db : Db) (uid : nat) (fault : option string) (c : SaveClock)
    (ch : Change) : Exc (Db * list SyncResult) :=
  match ch_type ch with
  | CCreate =>
      match fault with
      | Some e => Throw e
      | None =>
          let id := match ch_data_id ch with Some i => i | None => fresh_id db end in
          if existsb (fun x => Nat.eqb (task_id x) id) (tasks db)
          then Throw "E11000 duplicate key error"
          else Ok ({| tasks := tasks db ++ [new_task id uid c (upd_top (ch_data ch))];
                      users := users db |}, [Created id (ch_tempId ch)])
      end
  | CUpdate =>
      match fault with
      | Some e => Throw e
      | None =>
          Ok ({| tasks := map (fun x => if owned (ch_id ch) uid x
                                        then apply_update (ts_now c)
                                               (effective_set (ch_data ch)) x
                                        else x)
                              (tasks db);
                 users := users db |}, [Updated (ch_id ch)])
      end
  | CDelete =>
      match fault with
      | Some e => Throw e
      | None =>
          Ok ({| tasks := filter (fun x => negb (owned (ch_id ch) uid x)) (tasks db);
                 users := users db |}, [Deleted (ch_id ch)])
      end
  | COther => Ok (db, [])
  end.

(** [_id: change._id || change.tempId] *)
Definition error_id (ch : Change) : option nat :=
  match ch_id ch with Some i => Some i | None => ch_tempId ch end.

(** The [for ... of] loop; [faults n] and [clock n] are the fault and the
    clock readings of the [n]-th change. A [null] change ([None]) makes
    [change.type] throw a TypeError inside the [try], and [change._id]
    throw again inside the [catch]: the loop is left with the changes
    before it applied. *)
Fixpoint sync_loop (db : Db) (uid : nat) (faults : nat -> option string)
    (clock : nat -> SaveClock) (n : nat) (cs : list (option Change))
    : Db * Exc (list SyncResult) :=
  match cs with
  | [] => (db, Ok [])
  | None :: _ => (db, Throw "Cannot read properties of null (reading '_id')")
  | Some ch :: rest =>
      let '(db1, rs1) :=
        try_catch (sync_change db uid (faults n) (clock n) ch)
                  (fun e => (db, [SyncError (error_id ch) e])) in
      let '(db2, r2) := sync_loop db1 uid faults clock (S n) rest in
      (db2, rs2 <- r2 ;; Ok (rs1 ++ rs2))
  end.

Inductive SyncResponse :=
  | SyncFailed                                      (* 500 'Failed to sync tasks' *)
  | SyncOk (serverChanges : list Task) (syncResults : list SyncResult).

(** [syncTasks]. [lastSyncTime]: the time value of [new Date(lastSyncTime)],
    [None] when it is an Invalid Date (a missing key among others), which
    makes the first [Task.find] reject with a CastError. [find_fault]: that
    [find] rejects for another reason. [localChanges]: [None] when missing
    or not an array. *)
Definition syncTasks (db : Db) (uid : nat) (lastSyncTime : option Z)
    (find_fault : option string) (faults : nat -> option string)
    (clock : nat -> SaveClock) (localChanges : option (list (option Change)))
    : Db * SyncResponse :=
  match lastSyncTime, find_fault with
  | None, _ | _, Some _ => (db, SyncFailed)
  | Some since, None =>
      let serverChanges :=
        filter (fun x => Nat.eqb (userId x) uid && (since <? lastModified x)) (tasks db) in
      match localChanges with
      | None => (db, SyncOk serverChanges [])
      | Some cs =>
          match sync_loop db uid faults clock 0 cs with
          | (db', Ok rs) => (db', SyncOk serverChanges rs)
          | (db', Throw _) => (db', SyncFailed)
          end
      end
  end.

(** ** Vocabulary of the properties *)

(** The tasks of every user other than [uid], in store order. *)
Definition others (uid : nat) (db : Db) : list Task :=
  filter (fun x => negb (Nat.eqb (userId x) uid)) (tasks db).

(** What a cycle whose saves write [write] may leave in place of a stored
    document [x]. *)
Definition touched (write : Write) (x y : Task) : Prop :=
  y = x \/ exists c s, task_id s = task_id x /\ y = write c s x.

(** What a scan cycle may do to one stored document [x]:
    [checkAndSendReminders] leaves it or writes its mark-sent save (a
    [notified = true], [updatedAt], [lastModified] and [syncVersion]);
    [checkReminders] leaves it or writes [lastModified] and [syncVersion]. *)
Definition frame_ns (x y : Task) : Prop :=
  y = x \/ exists c snap, task_id snap = task_id x /\ y = set_notified c snap x.

Definition frame_cr (x y : Task) : Prop :=
  y = x \/ exists c snap, task_id snap = task_id x /\ y = set_hook_fields c snap x.


(** The local changes [syncTasks] acts on. *)
Definition counted (ch : Change) : bool :=
  match ch_type ch with COther => false | _ => true end.

(** The [$group] document of key [k] over the documents [p]. *)
Definition grp (p : list Task) (k : nat) : nat * list Task :=
  (k, filter (fun t => Nat.eqb (userId t) k) p).

(** * Properties *)

(** ** Marks *)

(** Every stored document with id [i] has [reminder.notified = true]. *)
Definition marked (db : Db) (i : nat) : Prop :=
  forall x, In x (tasks db) -> task_id x = i -> notified (reminder x) = Some true.

Definition ids (db : Db) : list nat := map task_id (tasks db).

(** ** Saves *)

Lemma save_task_some (w : Task -> Task) (db db' : Db) (id : nat) :
  save_task w db id = Some db' ->
  tasks db' = map (fun x => if Nat.eqb (task_id x) id then w x else x) (tasks db) /\
  users db' = users db.
Proof.
  unfold save_task. destruct (existsb _ _); [|discriminate].
  intros H. inversion H. split; reflexivity.
Qed.

Lemma save_task_exists (w : Task -> Task) (db : Db) (id : nat) :
  In id (ids db) -> exists db', save_task w db id = Some db'.
Proof.
  unfold save_task, ids. intros Hin.
  apply in_map_iff in Hin as [x [Hx Hin]].
  replace (existsb _ _) with true; [eauto|].
  symmetry. apply existsb_exists. exists x. split; [assumption|].
  apply Nat.eqb_eq. assumption.
Qed.

Lemma save_task_missing (w : Task -> Task) (db : Db) (id : nat) :
  ~ In id (ids db) -> save_task w db id = None.
Proof.
  unfold save_task, ids. intros Hn.
  destruct (existsb _ _) eqn:E; [|reflexivity].
  apply existsb_exists in E as [x [Hx E]]. apply Nat.eqb_eq in E.
  exfalso. apply Hn. rewrite <- E. apply in_map. exact Hx.
Qed.

Lemma ids_map_same (f : Task -> Task) (l : list Task) :
  (forall x, task_id (f x) = task_id x) -> map task_id (map f l) = map task_id l.
Proof. intros H. rewrite map_map. apply map_ext. exact H. Qed.

Lemma save_task_ids (w : Task -> Task) (db db' : Db) (id : nat) :
  (forall x, task_id (w x) = task_id x) ->
  save_task w db id = Some db' -> ids db' = ids db /\ users db' = users db.
Proof.
  intros Hw Hs. apply save_task_some in Hs as [H1 H2].
  split; [|exact H2]. unfold ids. rewrite H1.
  apply ids_map_same. intros x. destruct (Nat.eqb _ _); auto.
Qed.

(** The scans' writes compose: a second save of the same kind overwrites
    every field the first one wrote. *)
Lemma set_notified_twice (c : SaveClock) (s : Task) (c' : SaveClock) (s' x : Task) :
  set_notified c' s' (set_notified c s x) = set_notified c' s' x.
Proof. reflexivity. Qed.

Lemma set_hook_fields_twice (c : SaveClock) (s : Task) (c' : SaveClock) (s' x : Task) :
  set_hook_fields c' s' (set_hook_fields c s x) = set_hook_fields c' s' x.
Proof. reflexivity. Qed.

(** ** A cycle, for any handler and any write *)


Section Dispatch.
Variable handle : Handler.
Variable write : Write.
Variable ev : nat -> Event.
Variable save : Task -> option SaveClock.
Hypothesis write_id : forall c s x, task_id (write c s x) = task_id x.


Lemma dispatch_all_ids sel db log :
  ids (fst (dispatch_all handle write ev save sel db log)) = ids db /\
  users (fst (dispatch_all handle write ev save sel db log)) = users db.
Proof.
  revert db log. induction sel as [|[u t] rest IH]; intros db log; simpl.
  - split; reflexivity.
  - destruct (handle u t) as [evs mark].
    destruct (if mark then save t else None) as [c|];
      [destruct (save_task (write c t) db (task_id t)) as [db1|] eqn:Hs|];
      try apply IH.
    destruct (save_task_ids _ _ _ _ (write_id c t) Hs) as [H1 H2].
    destruct (IH db1 (log ++ evs ++ [ev (task_id t)])) as [H3 H4].
    split; congruence.
Qed.

Lemma touched_step (c : SaveClock) (t : Task) (l0 l : list Task) :
  (forall c' s' c'' s'' x, write c'' s'' (write c' s' x) = write c'' s'' x) ->
  Forall2 (touched write) l0 l ->
  Forall2 (touched write) l0
    (map (fun x => if Nat.eqb (task_id x) (task_id t) then write c t x else x) l).
Proof.
  intros Hidem H. induction H as [|x y l0 l Hxy H IH]; simpl; constructor; auto.
  destruct (Nat.eqb (task_id y) (task_id t)) eqn:E; [|exact Hxy].
  apply Nat.eqb_eq in E. right. exists c, t.
  destruct Hxy as [-> | [c0 [s0 [Hs0 ->]]]].
  - split; [symmetry; exact E | reflexivity].
  - rewrite write_id in E. split; [symmetry; exact E | apply Hidem].
Qed.

Lemma dispatch_all_frame sel db log (l0 : list Task) :
  (forall c' s' c'' s'' x, write c'' s'' (write c' s' x) = write c'' s'' x) ->
  Forall2 (touched write) l0 (tasks db) ->
  Forall2 (touched write) l0 (tasks (fst (dispatch_all handle write ev save sel db log))).
Proof.
  intros Hidem. revert db log. induction sel as [|[u t] rest IH]; intros db log H0;
    simpl; [exact H0|].
  destruct (handle u t) as [evs mark].
  destruct (if mark then save t else None) as [c|];
    [destruct (save_task (write c t) db (task_id t)) as [db1|] eqn:Hs|];
    apply IH; try exact H0.
  apply save_task_some in Hs as [H1 _]. rewrite H1.
  apply touched_step; assumption.
Qed.

Lemma dispatch_all_log_mono sel db log e :
  In e log -> In e (snd (dispatch_all handle write ev save sel db log)).
Proof.
  revert db log. induction sel as [|[u t] rest IH]; intros db log Hin; simpl.
  - exact Hin.
  - destruct (handle u t) as [evs mark].
    destruct (if mark then save t else None) as [c|];
      [destruct (save_task (write c t) db (task_id t))|];
      apply IH; apply in_or_app; left; exact Hin.
Qed.

Lemma dispatch_all_handled sel db log u t e :
  In (u, t) sel -> In e (fst (handle u t)) ->
  In e (snd (dispatch_all handle write ev save sel db log)).
Proof.
  revert db log. induction sel as [|[u' t'] rest IH]; intros db log Hin He;
    simpl in *.
  - contradiction.
  - destruct Hin as [Heq | Hin].
    + inversion Heq; subst; clear Heq.
      destruct (handle u t) as [evs mark]. simpl in He.
      destruct (if mark then save t else None) as [c|];
        [destruct (save_task (write c t) db (task_id t))|];
        apply dispatch_all_log_mono; apply in_or_app; right;
        apply in_or_app; left; exact He.
    + destruct (handle u' t') as [evs mark].
      destruct (if mark then save t' else None) as [c|];
        [destruct (save_task (write c t') db (task_id t'))|];
        apply IH; assumption.
Qed.

(** Every notifier call in the log comes from the handler run on a
    selected task. *)
Lemma dispatch_all_notify_origin sel db log i b :
  (forall j, ev j <> Notify i b) ->
  In (Notify i b) (snd (dispatch_all handle write ev save sel db log)) ->
  In (Notify i b) log \/
  exists u t, In (u, t) sel /\ In (Notify i b) (fst (handle u t)).
Proof.
  intros Hev. revert db log.
  induction sel as [|[u t] rest IH]; intros db log H; simpl in *.
  - left. exact H.
  - destruct (handle u t) as [evs mark] eqn:Hh.
    assert (Hstep : forall db' evm,
               (forall e, In e evm -> exists j, e = ev j) ->
               In (Notify i b) (snd (dispatch_all handle write ev save rest db'
                                      (log ++ evs ++ evm))) ->
               In (Notify i b) log \/
               exists u0 t0, ((u, t) = (u0, t0) \/ In (u0, t0) rest) /\
                             In (Notify i b) (fst (handle u0 t0))).
    { intros db' evm Hevm H'.
      destruct (IH db' _ H') as [Hl | [u0 [t0 [Hin Hn]]]].
      - apply in_app_or in Hl as [Hl | Hl]; [left; exact Hl|].
        apply in_app_or in Hl as [Hl | Hl].
        + right. exists u, t. split; [left; reflexivity|].
          rewrite Hh. exact Hl.
        + destruct (Hevm _ Hl) as [j Hj]. exfalso. apply (Hev j). symmetry. exact Hj.
      - right. exists u0, t0. split; [right; exact Hin | exact Hn]. }
    destruct (if mark then save t else None) as [c|];
      [destruct (save_task (write c t) db (task_id t))|];
      eapply Hstep; try eassumption;
      intros e He; simpl in He; try contradiction;
      destruct He as [He | []]; eauto.
Qed.

(** A document is left untouched when no selected snapshot with its id
    reaches the marking step. *)
Lemma dispatch_all_untouched sel db log i y :
  (forall u x, In (u, x) sel -> task_id x = i -> snd (handle u x) = false) ->
  In y (tasks db) -> task_id y = i ->
  In y (tasks (fst (dispatch_all handle write ev save sel db log))).
Proof.
  revert db log. induction sel as [|[u t] rest IH]; intros db log Hsel Hy Hid; simpl.
  - exact Hy.
  - assert (Hrest : forall u0 x, In (u0, x) rest -> task_id x = i ->
                               snd (handle u0 x) = false)
      by (intros; apply Hsel; simpl; auto).
    destruct (handle u t) as [evs mark] eqn:Hh.
    destruct (Nat.eqb (task_id t) i) eqn:Eti.
    + apply Nat.eqb_eq in Eti.
      assert (Hm : mark = false).
      { specialize (Hsel u t (or_introl eq_refl) Eti). rewrite Hh in Hsel. exact Hsel. }
      subst mark. simpl. apply IH; assumption.
    + destruct (if mark then save t else None) as [c|];
        [destruct (save_task (write c t) db (task_id t)) as [db1|] eqn:Hs|];
        apply IH; try assumption.
      apply save_task_some in Hs as [H1 _]. rewrite H1.
      apply in_map_iff. exists y. split; [|exact Hy].
      apply Nat.eqb_neq in Eti.
      destruct (Nat.eqb (task_id y) (task_id t)) eqn:E; [|reflexivity].
      apply Nat.eqb_eq in E. congruence.
Qed.

(** When every save of this kind writes [notified = true], a selected task
    whose job reaches the marking step with a save that is sent, and whose
    document is stored, ends the cycle marked. *)
Lemma dispatch_all_marks sel db log u t c :
  (forall c' s x, notified (reminder (write c' s x)) = Some true) ->
  In (u, t) sel -> snd (handle u t) = true -> save t = Some c ->
  In (task_id t) (ids db) ->
  marked (fst (dispatch_all handle write ev save sel db log)) (task_id t).
Proof.
  intros Hw. revert db log.
  assert (Hkeep : forall sel db log i, marked db i ->
            marked (fst (dispatch_all handle write ev save sel db log)) i).
  { intros sel0. induction sel0 as [|[u0 t0] rest IH]; intros db0 log0 i Hm;
      simpl; [exact Hm|].
    destruct (handle u0 t0) as [evs mark].
    destruct (if mark then save t0 else None) as [c0|];
      [destruct (save_task (write c0 t0) db0 (task_id t0)) as [db1|] eqn:Hs|];
      apply IH; try exact Hm.
    apply save_task_some in Hs as [H1 _]. intros x Hx Hid. rewrite H1 in Hx.
    apply in_map_iff in Hx as [y [Hy Hiny]].
    destruct (Nat.eqb (task_id y) (task_id t0)); subst x; [apply Hw|].
    apply Hm; assumption. }
  induction sel as [|[u' t'] rest IH]; intros db log Hin Hh Hs Hid; simpl in *.
  - contradiction.
  - destruct Hin as [Heq | Hin].
    + inversion Heq; subst; clear Heq.
      destruct (handle u t) as [evs mark]. simpl in Hh. subst mark.
      rewrite Hs.
      destruct (save_task_exists (write c t) db (task_id t) Hid) as [db1 Hst].
      rewrite Hst. apply Hkeep.
      apply save_task_some in Hst as [H1 _]. intros x Hx Hxid. rewrite H1 in Hx.
      apply in_map_iff in Hx as [y [Hy _]].
      destruct (Nat.eqb (task_id y) (task_id t)) eqn:E; subst x; [apply Hw|].
      rewrite Hxid, Nat.eqb_refl in E. discriminate.
    + destruct (handle u' t') as [evs mark].
      destruct (if mark then save t' else None) as [c'|];
        [destruct (save_task (write c' t') db (task_id t')) as [db1|] eqn:Hst|];
        apply IH; try assumption.
      destruct (save_task_ids _ _ _ _ (write_id c' t') Hst) as [H1 _]. congruence.
Qed.
End Dispatch.

Lemma save_task_images (w : Task -> Task) (db db' : Db) (id : nat) :
  save_task w db id = Some db' ->
  (forall x, In x (tasks db) -> task_id x = id -> In (w x) (tasks db')) /\
  (forall x, In x (tasks db) -> task_id x <> id -> In x (tasks db')).
Proof.
  intros Hs. apply save_task_some in Hs as [H1 _]. rewrite H1.
  split; intros x Hx Hid; apply in_map_iff; exists x; split; try exact Hx.
  - rewrite Hid, Nat.eqb_refl. reflexivity.
  - apply Nat.eqb_neq in Hid. rewrite Hid. reflexivity.
Qed.

(** ** A scan cycle *)

Lemma run_cycle_notify_origin due handle write ev save db i b :
  (forall j, ev j <> Notify i b) ->
  In (Notify i b) (snd (run_cycle due handle write ev save db)) ->
  exists t, In t (tasks db) /\ due t = true /\
            In (Notify i b) (fst (handle (populate db t) t)).
Proof.
  unfold run_cycle. intros Hev H.
  destruct (dispatch_all_notify_origin _ _ _ _ _ _ _ _ _ Hev H)
    as [[] | [u [t [Hin Hn]]]].
  apply in_map_iff in Hin as [x [Hx Hin]]. inversion Hx; subst; clear Hx.
  apply filter_In in Hin as [Hin Hd]. eauto.
Qed.

Lemma Marked_not_Notify i b : forall j, Marked j <> Notify i b.
Proof. discriminate. Qed.

Lemma Saved_not_Notify i b : forall j, Saved j <> Notify i b.
Proof. discriminate. Qed.

Lemma handle_ns_notify deliver u t i b :
  In (Notify i b) (fst (handle_ns deliver u t)) ->
  i = task_id t /\ snd (handle_ns deliver u t) = true.
Proof.
  unfold handle_ns. destruct u as [usr|]; simpl; [|contradiction].
  destruct (wants_email_ns usr); simpl; [|contradiction].
  intros [H | []]. inversion H. auto.
Qed.

Lemma handle_cr_notify deliver u t i b :
  In (Notify i b) (fst (handle_cr deliver u t)) ->
  i = task_id t /\ b = deliver t /\ snd (handle_cr deliver u t) = b /\
  exists usr, u = Some usr /\ has_email usr = true /\ wants_email_cr usr = true.
Proof.
  unfold handle_cr. destruct u as [usr|]; simpl; [|contradiction].
  destruct (has_email usr) eqn:He; simpl; [|contradiction].
  destruct (wants_email_cr usr) eqn:Hw; simpl; [|contradiction].
  destruct (deliver t) eqn:Hd; simpl; intros [H | []]; inversion H;
    repeat split; eauto.
Qed.

Lemma run_cycle_marks due handle write ev save db t :
  (forall c s x, task_id (write c s x) = task_id x) ->
  (forall c s x, notified (reminder (write c s x)) = Some true) ->
  In t (tasks db) -> due t = true -> snd (handle (populate db t) t) = true ->
  save t <> None ->
  marked (fst (run_cycle due handle write ev save db)) (task_id t).
Proof.
  intros Hid Hw Hin Hd Hh Hs. unfold run_cycle.
  destruct (save t) as [c|] eqn:Hsc; [|contradiction].
  eapply dispatch_all_marks; try eassumption.
  - apply in_map_iff. exists t. split; [reflexivity|].
    apply filter_In. split; assumption.
  - apply in_map. exact Hin.
Qed.

Lemma run_cycle_handled due handle write ev save db t e :
  In t (tasks db) -> due t = true -> In e (fst (handle (populate db t) t)) ->
  In e (snd (run_cycle due handle write ev save db)).
Proof.
  intros Hin Hd He. unfold run_cycle.
  eapply dispatch_all_handled; [|exact He].
  apply in_map_iff. exists t. split; [reflexivity|].
  apply filter_In. split; assumption.
Qed.

Lemma run_cycle_ids due handle write ev save db :
  (forall c s x, task_id (write c s x) = task_id x) ->
  ids (fst (run_cycle due handle write ev save db)) = ids db /\
  users (fst (run_cycle due handle write ev save db)) = users db.
Proof. intros H. apply dispatch_all_ids. exact H. Qed.

Lemma touched_refl (write : Write) (l : list Task) : Forall2 (touched write) l l.
Proof. induction l; constructor; [left; reflexivity | assumption]. Qed.

Lemma run_cycle_frame due handle write ev save db :
  (forall c s x, task_id (write c s x) = task_id x) ->
  (forall c' s' c'' s'' x, write c'' s'' (write c' s' x) = write c'' s'' x) ->
  Forall2 (touched write) (tasks db) (tasks (fst (run_cycle due handle write ev save db))).
Proof.
  intros Hid Hidem. unfold run_cycle.
  apply dispatch_all_frame; [exact Hid | exact Hidem | apply touched_refl].
Qed.

(** The document a cycle leaves in place of a stored one. *)
Lemma touched_image (write : Write) (l l' : list Task) (x : Task) :
  Forall2 (touched write) l l' -> In x l -> exists y, In y l' /\ touched write x y.
Proof.
  intros H. induction H as [|a b l l' Hab _ IH]; simpl; [contradiction|].
  intros [<- | Hx].
  - exists b. split; [left; reflexivity | exact Hab].
  - destruct (IH Hx) as [y [Hy Hxy]]. exists y. split; [right; exact Hy | exact Hxy].
Qed.


Lemma due_cr_later (now now' : Z) (t : Task) :
  now <= now' -> due_cr now t = true -> due_cr now' t = true.
Proof.
  unfold due_cr, date_lte. intros Hle Hd.
  destruct (datetime (reminder t)) as [d|]; [|rewrite andb_false_r in Hd; discriminate].
  repeat (apply andb_prop in Hd as [Hd ?]). rewrite Hd.
  repeat match goal with H : ?b = true |- _ => rewrite H; clear H end.
  simpl. match goal with H : (d <=? now) = true |- _ => apply Z.leb_le in H end.
  replace (d <=? now') with true by (symmetry; apply Z.leb_le; lia). reflexivity.
Qed.

(** [checkReminders]' save leaves the reminder, the status, the archive flag
    and the owner of a document as they are: a task it selects stays
    selected at every later instant, whatever the notifier and the store
    did. *)
Lemma checkReminders_keeps_due (now : Z) (deliver : Task -> bool)
    (save : Task -> option SaveClock) (db : Db) (t : Task) :
  In t (tasks db) -> due_cr now t = true ->
  exists t', In t' (tasks (fst (checkReminders now deliver save db))) /\
    task_id t' = task_id t /\ userId t' = userId t /\ reminder t' = reminder t /\
    (forall now', now <= now' -> due_cr now' t' = true).
Proof.
  intros Hin Hd.
  assert (Hf := run_cycle_frame (due_cr now) (handle_cr deliver) set_hook_fields Saved
                  save db (fun _ _ _ => eq_refl) set_hook_fields_twice).
  destruct (touched_image _ _ _ _ Hf Hin) as [y [Hy Hty]].
  exists y. split; [exact Hy|].
  destruct Hty as [-> | [c [s [_ ->]]]].
  - repeat split; try reflexivity. intros now' Hle. eapply due_cr_later; eassumption.
  - repeat split; try reflexivity. intros now' Hle.
    apply (due_cr_later now); [exact Hle|]. exact Hd.
Qed.



Lemma NoDup_ids_inj (l : list Task) (x y : Task) :
  NoDup (map task_id l) -> In x l -> In y l -> task_id x = task_id y -> x = y.
Proof.
  induction l as [|z l IH]; simpl; [contradiction|].
  intros Hnd Hx Hy Hid. inversion Hnd as [|? ? Hnin Hnd']; subst.
  destruct Hx as [<- | Hx], Hy as [<- | Hy]; try reflexivity.
  - exfalso. apply Hnin. rewrite Hid. apply in_map. exact Hy.
  - exfalso. apply Hnin. rewrite <- Hid. apply in_map. exact Hx.
  - apply IH; assumption.
Qed.

(** ** C1: marking a reminder sent *)

(** The dispatcher's snapshot of task 1, taken while its reminder was due at
    1000 (syncVersion 2), and the store after [scheduleReminder] moved
    [reminderDate] to 2000 (its save made syncVersion 3). *)
Definition c1_owner : User := mkUser 7 (Some "owner@example.com"%string) (Some true).

Definition c1_snapshot : Task :=
  mkTask 1 7 Pending None false
    (mkReminder (Some true) (Some 1000) (Some false) None None) 100 2 100.

Definition c1_edited : Task :=
  mkTask 1 7 Pending None false
    (mkReminder (Some true) (Some 2000) (Some false) None None) 1200 3 1200.

Definition c1_db : Db := mkDb [c1_edited] [c1_owner].

(** The clock readings of the marking saves in the examples. *)
Definition c1_clock : SaveClock := mkClock 1500 1500.

(** C1 (counterexample): the mark-sent write applies although the stored
    [reminderDate] (2000) differs from the one the dispatcher captured
    (1000); it sets [notified] on the edited reminder. The hook computes
    [syncVersion] from the snapshot, so the store keeps 3 after a second
    save, and [checkReminders]' save writes the same [lastModified] and
    [syncVersion] and nothing else: no [sent] field appears. *)
Lemma markNotified_ignores_reminderDate :
  snd (scheduleReminder (mkFaults None None) (mkClock 1200 1200)
         (mkDb [c1_snapshot] [c1_owner]) 1 2000) = c1_db /\
  reminderDate (reminder c1_snapshot) <> reminderDate (reminder c1_edited) /\
  markNotified c1_db c1_clock c1_snapshot =
    Some (mkDb [mkTask 1 7 Pending None false
                  (mkReminder (Some true) (Some 2000) (Some true) None None)
                  1500 3 1500] [c1_owner]) /\
  markSent c1_db c1_clock c1_snapshot =
    Some (mkDb [mkTask 1 7 Pending None false
                  (mkReminder (Some true) (Some 2000) (Some false) None None)
                  1500 3 1200] [c1_owner]).
Proof. repeat split; try reflexivity. discriminate. Qed.

(** C1 (amended): marking is the save of the fetched snapshot. Whenever a
    document with the snapshot's id is stored, [checkAndSendReminders]'
    write applies: every stored document with that id gets
    [notified = true], with its current [reminderDate] and other reminder
    fields, the clock's [updatedAt] and [lastModified], and [syncVersion]
    one above the snapshot's, whatever the stored document holds;
    [checkReminders]' write applies likewise and writes only [lastModified]
    and [syncVersion]. Other documents are unchanged, no
    applied/not-applied result is reported, and both writes fail only when
    the document is gone. *)
Theorem markNotified_unconditional (db : Db) (c : SaveClock) (snap : Task) :
  (In (task_id snap) (ids db) ->
   (exists db',
      markNotified db c snap = Some db' /\
      marked db' (task_id snap) /\
      ids db' = ids db /\
      (forall x, In x (tasks db) -> task_id x = task_id snap ->
         In (set_notified c snap x) (tasks db')) /\
      (forall x, In x (tasks db) -> task_id x <> task_id snap -> In x (tasks db'))) /\
   (exists db',
      markSent db c snap = Some db' /\
      ids db' = ids db /\
      (forall x, In x (tasks db) -> task_id x = task_id snap ->
         In (set_hook_fields c snap x) (tasks db')) /\
      (forall x, In x (tasks db) -> task_id x <> task_id snap -> In x (tasks db')))) /\
  (~ In (task_id snap) (ids db) ->
   markNotified db c snap = None /\ markSent db c snap = None).
Proof.
  split.
  - intros Hin. split.
    + destruct (save_task_exists (set_notified c snap) db _ Hin) as [db' Hmk].
      exists db'. split; [exact Hmk|].
      destruct (save_task_images _ _ _ _ Hmk) as [Hw Ho].
      split.
      * apply save_task_some in Hmk as [H1 _].
        intros x Hx Hid. rewrite H1 in Hx. apply in_map_iff in Hx as [y [Hy _]].
        subst x. destruct (Nat.eqb (task_id y) (task_id snap)) eqn:E; [reflexivity|].
        rewrite Hid, Nat.eqb_refl in E. discriminate.
      * split; [apply (proj1 (save_task_ids (set_notified c snap) _ _ _ (fun _ => eq_refl) Hmk))|].
        split; assumption.
    + destruct (save_task_exists (set_hook_fields c snap) db _ Hin) as [db' Hmk].
      exists db'. split; [exact Hmk|].
      destruct (save_task_images _ _ _ _ Hmk) as [Hw Ho].
      split; [apply (proj1 (save_task_ids (set_hook_fields c snap) _ _ _ (fun _ => eq_refl) Hmk))|].
      split; assumption.
  - intros Hn. split; apply save_task_missing; exact Hn.
Qed.

Lemma markNotified_unconditional_witness :
  exists db',
    markNotified c1_db c1_clock c1_snapshot = Some db' /\
    marked db' (task_id c1_snapshot) /\
    ids db' = ids c1_db /\
    (forall x, In x (tasks c1_db) -> task_id x = task_id c1_snapshot ->
       In (set_notified c1_clock c1_snapshot x) (tasks db')) /\
    (forall x, In x (tasks c1_db) -> task_id x <> task_id c1_snapshot ->
       In x (tasks db')).
Proof.
  assert (H : In (task_id c1_snapshot) (ids c1_db)) by (simpl; left; reflexivity).
  exact (proj1 (proj1 (markNotified_unconditional c1_db c1_clock c1_snapshot) H)).
Defined.

(** ** C2: no second notification after a successful mark *)

Definition c2_task : Task :=
  mkTask 1 7 Pending None false
    (mkReminder (Some true) (Some 1000) (Some false) None None) 100 2 100.

Definition c2_db : Db := mkDb [c2_task] [c1_owner].

(** A document carrying the fields part_004 reads, [reminder.sent = false]
    and [reminder.datetime = 1000]. *)
Definition c2_cr_task : Task :=
  mkTask 1 7 Pending None false
    (mkReminder (Some true) None None (Some false) (Some 1000)) 100 2 100.





(** ** C3: failed delivery *)

Definition c3_marked_task : Task :=
  mkTask 1 7 Pending None false
    (mkReminder (Some true) (Some 1000) (Some true) None None) 1500 3 1500.

(** C3 (the code at the failing input): the mail transport fails for task 1
    ([sendEmail] resolves to [{ success: false }]); [checkAndSendReminders]
    marks the reminder anyway, and the next cycle no longer selects it. *)
Lemma checkAndSendReminders_marks_failed_delivery :
  checkAndSendReminders 1000 (fun _ => false) (fun _ => Some c1_clock) c2_db
    = (mkDb [c3_marked_task] [c1_owner], [Notify 1 false; Marked 1]) /\
  snd (checkAndSendReminders 2000 (fun _ => true) (fun _ => Some c1_clock)
         (mkDb [c3_marked_task] [c1_owner])) = [].
Proof. split; reflexivity. Qed.

(** ** C4: email notifications disabled by the owner *)

Definition c4_owner : User := mkUser 7 (Some "owner@example.com"%string) (Some false).

Definition c4_db : Db := mkDb [c2_task] [c4_owner].

Definition c4_cr_db : Db := mkDb [c2_cr_task] [c4_owner].

(** C4 (counterexample): the owner of due task 1 disabled email
    notifications. [checkAndSendReminders] skips the notifier and marks the
    reminder sent; [checkReminders] skips the notifier, stores no mark, and
    selects the task again in the next scan. *)
Lemma disabled_email_marks_sent :
  checkAndSendReminders 1000 (fun _ => true) (fun _ => Some c1_clock) c4_db
    = (mkDb [c3_marked_task] [c4_owner], [Marked 1]) /\
  checkReminders 1000 (fun _ => true) (fun _ => Some c1_clock) c4_cr_db
    = (mkDb [mkTask 1 7 Pending None false
               (mkReminder (Some true) None None (Some false) (Some 1000))
               1500 3 100] [c4_owner], [Saved 1]) /\
  snd (checkReminders 2000 (fun _ => true) (fun _ => Some c1_clock)
         (fst (checkReminders 1000 (fun _ => true) (fun _ => Some c1_clock) c4_cr_db)))
    = [Saved 1].
Proof. repeat split; reflexivity. Qed.

(** C4 (amended): for a due task whose owner disabled email notifications
    ([checkAndSendReminders]: preference [false]; [checkReminders]: any
    preference other than [true], the owner having an email address), the
    notifier is not invoked for the task. [checkAndSendReminders] marks the
    reminder sent when the save is sent, so later cycles no longer select
    it; after [checkReminders] the stored reminder is the same and the task
    is selected again at every later instant. *)
Theorem disabled_email_skips_notifier (now : Z) (deliver : Task -> bool)
    (save : Task -> option SaveClock) (db : Db) (t : Task) (u : User) :
  NoDup (ids db) -> In t (tasks db) -> populate db t = Some u -> save t <> None ->
  (due_ns now t = true -> wants_email_ns u = false ->
   (forall b, ~ In (Notify (task_id t) b)
                  (snd (checkAndSendReminders now deliver save db))) /\
   marked (fst (checkAndSendReminders now deliver save db)) (task_id t)) /\
  (due_cr now t = true -> has_email u = true -> wants_email_cr u = false ->
   (forall b, ~ In (Notify (task_id t) b)
                  (snd (checkReminders now deliver save db))) /\
   exists t', In t' (tasks (fst (checkReminders now deliver save db))) /\
     task_id t' = task_id t /\ reminder t' = reminder t /\
     (forall now', now <= now' -> due_cr now' t' = true)).
Proof.
  intros Hnd Hin Hpop Hs. split.
  - intros Hd Hw. split.
    + intros b H.
      destruct (run_cycle_notify_origin _ _ _ _ _ _ _ _ (Marked_not_Notify _ _) H)
        as [t' [Hin' [_ Hn]]].
      destruct (handle_ns_notify _ _ _ _ _ Hn) as [Hid _].
      rewrite <- (NoDup_ids_inj _ _ _ Hnd Hin Hin' Hid) in Hn.
      rewrite Hpop in Hn. unfold handle_ns in Hn. rewrite Hw in Hn.
      contradiction.
    + apply (run_cycle_marks _ _ set_notified _ _ _ _ (fun _ _ _ => eq_refl) (fun _ _ _ => eq_refl));
        try assumption.
      rewrite Hpop. reflexivity.
  - intros Hd He Hw. split.
    + intros b H.
      destruct (run_cycle_notify_origin _ _ _ _ _ _ _ _ (Saved_not_Notify _ _) H)
        as [t' [Hin' [_ Hn]]].
      destruct (handle_cr_notify _ _ _ _ _ Hn) as [Hid _].
      rewrite <- (NoDup_ids_inj _ _ _ Hnd Hin Hin' Hid) in Hn.
      rewrite Hpop in Hn. unfold handle_cr in Hn. rewrite He, Hw in Hn.
      contradiction.
    + destruct (checkReminders_keeps_due now deliver save db t Hin Hd)
        as [t' [Hin' [Hid [_ [Hr Hdue]]]]].
      exists t'. repeat split; assumption.
Qed.

Lemma disabled_email_skips_notifier_witness :
  ((forall b, ~ In (Notify 1 b)
                  (snd (checkAndSendReminders 1000 (fun _ => true)
                          (fun _ => Some c1_clock) c4_db))) /\
   marked (fst (checkAndSendReminders 1000 (fun _ => true)
                  (fun _ => Some c1_clock) c4_db)) 1) /\
  ((forall b, ~ In (Notify 1 b)
                  (snd (checkReminders 1000 (fun _ => true)
                          (fun _ => Some c1_clock) c4_cr_db))) /\
   exists t', In t' (tasks (fst (checkReminders 1000 (fun _ => true)
                                   (fun _ => Some c1_clock) c4_cr_db))) /\
     task_id t' = 1%nat /\ reminder t' = reminder c2_cr_task /\
     (forall now', 1000 <= now' -> due_cr now' t' = true)).
Proof.
  assert (Hs : (fun _ : Task => Some c1_clock) c2_task <> None) by discriminate.
  split.
  - assert (Hnd : NoDup (ids c4_db)) by (constructor; [simpl; tauto | constructor]).
    assert (Hin : In c2_task (tasks c4_db)) by (simpl; left; reflexivity).
    exact (proj1 (disabled_email_skips_notifier 1000 (fun _ => true)
                    (fun _ => Some c1_clock) c4_db c2_task c4_owner
                    Hnd Hin eq_refl Hs) eq_refl eq_refl).
  - assert (Hnd : NoDup (ids c4_cr_db)) by (constructor; [simpl; tauto | constructor]).
    assert (Hin : In c2_cr_task (tasks c4_cr_db)) by (simpl; left; reflexivity).
    exact (proj2 (disabled_email_skips_notifier 1000 (fun _ => true)
                    (fun _ => Some c1_clock) c4_cr_db c2_cr_task c4_owner
                    Hnd Hin eq_refl Hs) eq_refl eq_refl eq_refl).
Defined.

(** ** C5: editing the reminder time *)

Definition c5_db : Db := mkDb [c3_marked_task] [c1_owner].

(** [PATCH /tasks/1] with body [{ reminder: { enabled: true, reminderDate: 5000 } }]. *)
Definition c5_doc : UpdateDoc :=
  mkUpdateDoc
    (mkUpdateBody None None None None
       (Some (mkReminderBody (Some true) (Some (Some 5000)) None)))
    None.

(** C5 (the code at the failing input): task 1 was reminded for 1000
    ([notified = true]); the edit at 2000 moves [reminderDate] to 5000 and
    leaves [notified] absent, not [false], so neither scanner selects the
    task again once 5000 has passed. [scheduleReminder] and
    [Task.setReminder] write [notified = false] with the new date. *)
Lemma updateTask_does_not_reset_notified :
  updateTask c5_db 2000 1 7 c5_doc
    = (mkDb [mkTask 1 7 Pending None false
               (mkReminder (Some true) (Some 5000) None None None) 1500 3 2000]
            [c1_owner], true) /\
  snd (checkAndSendReminders 10000 (fun _ => true) (fun _ => Some c1_clock)
         (fst (updateTask c5_db 2000 1 7 c5_doc))) = [] /\
  snd (checkReminders 10000 (fun _ => true) (fun _ => Some c1_clock)
         (fst (updateTask c5_db 2000 1 7 c5_doc))) = [] /\
  fst (scheduleReminder (mkFaults None None) (mkClock 2000 2000) c5_db 1 5000)
    = mkOpResult true "Reminder scheduled successfully" None (Some 5000) /\
  snd (checkAndSendReminders 10000 (fun _ => true) (fun _ => Some c1_clock)
         (snd (scheduleReminder (mkFaults None None) (mkClock 2000 2000) c5_db 1 5000)))
    = [Notify 1 true; Marked 1].
Proof. repeat split; reflexivity. Qed.

(** ** C6: lookahead *)

Definition c6_task : Task :=
  mkTask 1 7 Pending None false
    (mkReminder (Some true) (Some 60000) (Some false) None None) 100 2 100.

Definition c6_db : Db := mkDb [c6_task] [c1_owner].

(** A document carrying part_004's fields, due at 60000. *)
Definition c6_cr_db : Db :=
  mkDb [mkTask 1 7 Pending None false
          (mkReminder (Some true) None None (Some false) (Some 60000)) 100 2 100]
       [c1_owner].

(** C6 (counterexample): at [now = 0] [checkAndSendReminders] delivers the
    reminder of task 1, due at 60000 (one minute later). *)
Lemma checkAndSendReminders_fires_early :
  0 < 60000 /\
  reminderDate (reminder c6_task) = Some 60000 /\
  snd (checkAndSendReminders 0 (fun _ => true) (fun _ => Some c1_clock) c6_db)
    = [Notify 1 true; Marked 1].
Proof. repeat split; reflexivity. Qed.

(** C6 (amended): [checkAndSendReminders] invokes the notifier at [now]
    only for tasks with [reminderDate <= now + 5 minutes]; [checkReminders]
    only for tasks with a [reminder.datetime <= now]. *)
Theorem notify_within_window (now : Z) (deliver : Task -> bool)
    (save : Task -> option SaveClock) (db : Db) (i : nat) (b : bool) :
  (In (Notify i b) (snd (checkAndSendReminders now deliver save db)) ->
   exists t d, In t (tasks db) /\ task_id t = i /\
               reminderDate (reminder t) = Some d /\ d <= now + 5 * 60 * 1000) /\
  (In (Notify i b) (snd (checkReminders now deliver save db)) ->
   exists t d, In t (tasks db) /\ task_id t = i /\
               datetime (reminder t) = Some d /\ d <= now).
Proof.
  split; intros H.
  - destruct (run_cycle_notify_origin _ _ _ _ _ _ _ _ (Marked_not_Notify _ _) H)
      as [t [Hin [Hd Hn]]].
    destruct (handle_ns_notify _ _ _ _ _ Hn) as [Hid _].
    unfold due_ns in Hd. repeat (apply andb_prop in Hd as [Hd ?]).
    match goal with H : date_lte _ _ = true |- _ => rename H into Hdl end.
    unfold date_lte, reminderWindow in Hdl.
    destruct (reminderDate (reminder t)) as [d|] eqn:Hr; [|discriminate].
    exists t, d. split; [exact Hin|]. split; [symmetry; exact Hid|].
    split; [exact Hr|]. apply Z.leb_le. exact Hdl.
  - destruct (run_cycle_notify_origin _ _ _ _ _ _ _ _ (Saved_not_Notify _ _) H)
      as [t [Hin [Hd Hn]]].
    destruct (handle_cr_notify _ _ _ _ _ Hn) as [Hid _].
    unfold due_cr in Hd. repeat (apply andb_prop in Hd as [Hd ?]).
    match goal with H : date_lte _ _ = true |- _ => rename H into Hdl end.
    unfold date_lte in Hdl.
    destruct (datetime (reminder t)) as [d|] eqn:Hr; [|discriminate].
    exists t, d. split; [exact Hin|]. split; [symmetry; exact Hid|].
    split; [exact Hr|]. apply Z.leb_le. exact Hdl.
Qed.

Lemma notify_within_window_witness :
  (exists t d, In t (tasks c6_db) /\ task_id t = 1%nat /\
               reminderDate (reminder t) = Some d /\ d <= 0 + 5 * 60 * 1000) /\
  (exists t d, In t (tasks c6_cr_db) /\ task_id t = 1%nat /\
               datetime (reminder t) = Some d /\ d <= 60000).
Proof.
  split.
  - apply (proj1 (notify_within_window 0 (fun _ => true) (fun _ => Some c1_clock)
                    c6_db 1 true)).
    vm_compute. left. reflexivity.
  - apply (proj2 (notify_within_window 60000 (fun _ => true) (fun _ => Some c1_clock)
                    c6_cr_db 1 true)).
    vm_compute. left. reflexivity.
Defined.

(** ** C7: one task's failure does not stop the cycle *)

(** C7 (the code): whatever the notifier does for the other tasks of the
    cycle, a due task whose owner accepts email gets its notifier call in
    both scanners. [checkAndSendReminders] marks its reminder sent on a
    successful delivery and a sent save. [checkReminders] stores no mark
    whatever happens: the task keeps [reminder.sent = false] and is
    selected again at every later instant. *)
Theorem cycle_isolation (now : Z) (deliver : Task -> bool)
    (save : Task -> option SaveClock) (db : Db) (t : Task) (u : User) :
  In t (tasks db) -> populate db t = Some u ->
  (due_ns now t = true -> wants_email_ns u = true ->
   In (Notify (task_id t) (deliver t))
      (snd (checkAndSendReminders now deliver save db)) /\
   (deliver t = true -> save t <> None ->
    marked (fst (checkAndSendReminders now deliver save db)) (task_id t))) /\
  (due_cr now t = true -> has_email u = true -> wants_email_cr u = true ->
   In (Notify (task_id t) (deliver t)) (snd (checkReminders now deliver save db)) /\
   exists t', In t' (tasks (fst (checkReminders now deliver save db))) /\
     task_id t' = task_id t /\ sent (reminder t') = Some false /\
     (forall now', now <= now' -> due_cr now' t' = true)).
Proof.
  intros Hin Hpop. split.
  - intros Hd Hw. split.
    + apply (run_cycle_handled _ _ _ _ _ _ t); try assumption.
      rewrite Hpop. unfold handle_ns. rewrite Hw. left. reflexivity.
    + intros _ Hs.
      apply (run_cycle_marks _ _ set_notified _ _ _ _ (fun _ _ _ => eq_refl) (fun _ _ _ => eq_refl));
        try assumption.
      rewrite Hpop. reflexivity.
  - intros Hd He Hw. split.
    + apply (run_cycle_handled _ _ _ _ _ _ t); try assumption.
      rewrite Hpop. unfold handle_cr. rewrite He, Hw. simpl.
      destruct (deliver t); left; reflexivity.
    + destruct (checkReminders_keeps_due now deliver save db t Hin Hd)
        as [t' [Hin' [Hid [_ [Hr Hdue]]]]].
      exists t'. split; [exact Hin'|]. split; [exact Hid|].
      split; [|exact Hdue].
      rewrite Hr. unfold due_cr in Hd.
      destruct (sent (reminder t)) as [[|]|];
        [rewrite andb_false_r in Hd; discriminate | reflexivity |
         rewrite andb_false_r in Hd; discriminate].
Qed.

(** Two due tasks of one owner; the notifier fails for task 1 and succeeds
    for task 2. *)
Definition c7_a : Task :=
  mkTask 1 7 Pending None false
    (mkReminder (Some true) (Some 1000) (Some false) None None) 100 2 100.
Definition c7_b : Task :=
  mkTask 2 7 InProgress None false
    (mkReminder (Some true) (Some 1000) (Some false) None None) 100 2 100.
Definition c7_db : Db := mkDb [c7_a; c7_b] [c1_owner].

(** The same two tasks as documents carrying part_004's fields. *)
Definition c7_cr_a : Task :=
  mkTask 1 7 Pending None false
    (mkReminder (Some true) None None (Some false) (Some 1000)) 100 2 100.
Definition c7_cr_b : Task :=
  mkTask 2 7 InProgress None false
    (mkReminder (Some true) None None (Some false) (Some 1000)) 100 2 100.
Definition c7_cr_db : Db := mkDb [c7_cr_a; c7_cr_b] [c1_owner].

Definition c7_deliver (t : Task) : bool := negb (Nat.eqb (task_id t) 1).

Lemma cycle_isolation_witness :
  In (Notify 2 true)
     (snd (checkAndSendReminders 1000 c7_deliver (fun _ => Some c1_clock) c7_db)) /\
  marked (fst (checkAndSendReminders 1000 c7_deliver (fun _ => Some c1_clock) c7_db)) 2 /\
  In (Notify 2 true)
     (snd (checkReminders 1000 c7_deliver (fun _ => Some c1_clock) c7_cr_db)) /\
  (exists t', In t' (tasks (fst (checkReminders 1000 c7_deliver
                                   (fun _ => Some c1_clock) c7_cr_db))) /\
     task_id t' = 2%nat /\ sent (reminder t') = Some false /\
     (forall now', 1000 <= now' -> due_cr now' t' = true)).
Proof.
  assert (Hs : (fun _ : Task => Some c1_clock) c7_b <> None) by discriminate.
  assert (Hin : In c7_b (tasks c7_db)) by (simpl; right; left; reflexivity).
  assert (Hin' : In c7_cr_b (tasks c7_cr_db)) by (simpl; right; left; reflexivity).
  destruct (proj1 (cycle_isolation 1000 c7_deliver (fun _ => Some c1_clock) c7_db c7_b
                     c1_owner Hin eq_refl) eq_refl eq_refl) as [H1 H2].
  destruct (proj2 (cycle_isolation 1000 c7_deliver (fun _ => Some c1_clock) c7_cr_db
                     c7_cr_b c1_owner Hin' eq_refl) eq_refl eq_refl eq_refl) as [H3 H4].
  exact (conj H1 (conj (H2 eq_refl Hs) (conj H3 H4))).
Defined.
(** ** C8: the overdue count *)

Lemma setHours_end_of_day_ge (tz now : Z) :
  now <= setHours tz (setHours tz now 0 0 0 0) 23 59 59 999.
Proof.
  unfold setHours, day_ms.
  set (D := 24 * 60 * 60 * 1000).
  assert (HD : 0 < D) by (unfold D; lia).
  pose proof (Z.mod_pos_bound (now + tz) D HD) as Hb.
  pose proof (Z.div_mod (now + tz) D ltac:(lia)) as Hdm.
  replace (now - (now + tz) mod D + (((0 * 60 + 0) * 60 + 0) * 1000 + 0) + tz)
    with (((now + tz) / D) * D) by lia.
  rewrite Z.mod_mul by lia.
  unfold D in *. lia.
Qed.

(** 2024-06-15T12:00:00Z and a task of user 7 due at 08:00 the same day. *)
Definition c8_now : Z := 1718452800000.

Definition c8_task : Task :=
  mkTask 1 7 Pending (Some 1718438400000) false (mkReminder None None None None None) 100 2 100.

Definition c8_db : Db := mkDb [c8_task] [c1_owner].

(** C8 (counterexample): in UTC the day of [c8_now] starts at
    1718409600000; the task is due after that, yet the summary counts it
    as overdue. *)
Lemma overdue_counts_task_due_today :
  setHours 0 c8_now 0 0 0 0 = 1718409600000 /\
  dueDate c8_task = Some 1718438400000 /\
  1718409600000 <= 1718438400000 /\
  overdueTasks (generateUserSummary 0 c8_now c8_db 7) = 1.
Proof. repeat split; try reflexivity; lia. Qed.

(** C8 (amended): the overdue count is the number of the user's tasks with
    status pending or in-progress, not archived, and [dueDate] before a
    cutoff instant that is not earlier than [now] (the filter compares with
    the [today] Date, not with the start of the day). *)
Theorem overdue_count_cutoff (tz now : Z) (db : Db) (uid : nat) :
  exists cutoff, now <= cutoff /\
    overdueTasks (generateUserSummary tz now db uid) =
    countDocuments db uid
      (fun t => date_lt (dueDate t) cutoff && status_open (status t) &&
                negb (isArchived t)).
Proof.
  exists (setHours tz (setHours tz now 0 0 0 0) 23 59 59 999).
  split; [apply setHours_end_of_day_ge | reflexivity].
Qed.

(** ** C9: the completion rate *)

(** The formula as the specification words it: round(100 * completed /
    total) in exact arithmetic, i.e. floor(100 c / t + 1/2), and 0 when
    [total = 0]; stated to be compared with [completionRate]. *)
Definition completionRate_spec (c t : Z) : Z :=
  if t =? 0 then 0 else (200 * c + t) / (2 * t).

(** 40 tasks of user 7, 23 of them completed. *)
Definition c9_db : Db :=
  mkDb (map (fun n => mkTask n 7 (if Nat.ltb n 23 then Completed else Pending)
                             None false (mkReminder None None None None None) 100 2 100)
            (seq 0 40))
       [c1_owner].

(** C9 (counterexample): with 23 of 40 tasks completed the summary reports
    57, while round(100 * 23 / 40) = round(57.5) = 58: in binary64,
    23 / 40 * 100 is 57.49999999999999. *)
Lemma completionRate_23_40 :
  totalTasks (generateUserSummary 0 0 c9_db 7) = 40 /\
  completedTasks (generateUserSummary 0 0 c9_db 7) = 23 /\
  summary_completionRate (generateUserSummary 0 0 c9_db 7) = 57 /\
  completionRate_spec 23 40 = 58.
Proof. repeat split; vm_compute; reflexivity. Qed.

Definition rates_agree_upto (n : nat) : bool :=
  forallb (fun tn =>
    forallb (fun cn => Z.eqb (completionRate (Z.of_nat cn) (Z.of_nat tn))
                             (completionRate_spec (Z.of_nat cn) (Z.of_nat tn)))
            (seq 0 (S tn)))
    (seq 1 n).

Lemma rates_agree_upto_39 : rates_agree_upto 39 = true.
Proof. vm_compute. reflexivity. Qed.

Lemma completionRate_small_totals (c t : Z) :
  0 <= c <= t -> 1 <= t <= 39 -> completionRate c t = completionRate_spec c t.
Proof.
  intros Hc Ht.
  pose proof rates_agree_upto_39 as H. unfold rates_agree_upto in H.
  rewrite forallb_forall in H.
  specialize (H (Z.to_nat t)).
  rewrite Z2Nat.id in H by lia.
  assert (Hin : In (Z.to_nat t) (seq 1 39)) by (apply in_seq; lia).
  specialize (H Hin). rewrite forallb_forall in H.
  specialize (H (Z.to_nat c)).
  rewrite Z2Nat.id in H by lia.
  assert (Hin' : In (Z.to_nat c) (seq 0 (S (Z.to_nat t)))) by (apply in_seq; lia).
  specialize (H Hin'). apply Z.eqb_eq. exact H.
Qed.

(** C9 (amended): the summary's rate is [completionRate completed total],
    Math.round((completed / total) * 100) in binary64, and 0 when there is
    no task (no division happens); it equals the exact round(100 *
    completed / total) for every total up to 39; 3 of 10 gives 30. *)
Theorem completionRate_binary64 (tz now : Z) (db : Db) (uid : nat) :
  summary_completionRate (generateUserSummary tz now db uid) =
    completionRate (completedTasks (generateUserSummary tz now db uid))
                   (totalTasks (generateUserSummary tz now db uid)) /\
  (forall c, completionRate c 0 = 0) /\
  completionRate 3 10 = 30 /\
  (forall c t, 0 <= c <= t -> 1 <= t <= 39 ->
     completionRate c t = completionRate_spec c t).
Proof.
  split; [reflexivity|].
  split; [intros c; reflexivity|].
  split; [vm_compute; reflexivity|].
  exact completionRate_small_totals.
Qed.

Lemma completionRate_binary64_witness :
  completionRate 7 20 = completionRate_spec 7 20.
Proof.
  apply (proj2 (proj2 (proj2 (completionRate_binary64 0 0 c9_db 7)))); lia.
Defined.

(** ** C10: [scheduleReminder] and [cancelReminder] always answer *)

Definition reports (r : OpResult) (ok_msg fail_msg : string) : Prop :=
  (success r = true /\ message r = ok_msg /\ error r = None) \/
  (success r = false /\ message r = fail_msg /\ error r <> None).

Lemma find_id_none (db : Db) (taskId : nat) :
  ~ In taskId (ids db) ->
  find (fun x => Nat.eqb (task_id x) taskId) (tasks db) = None.
Proof.
  intros Hn. destruct (find _ _) as [x|] eqn:E; [|reflexivity].
  apply find_some in E as [Hx Hid]. apply Nat.eqb_eq in Hid.
  exfalso. apply Hn. subst taskId. apply in_map. exact Hx.
Qed.

Lemma find_id_some (db : Db) (taskId : nat) (x : Task) :
  find (fun x => Nat.eqb (task_id x) taskId) (tasks db) = Some x ->
  existsb (fun y => Nat.eqb (task_id y) (task_id x)) (tasks db) = true.
Proof.
  intros E. apply find_some in E as [Hx _].
  apply existsb_exists. exists x. split; [exact Hx | apply Nat.eqb_refl].
Qed.

Ltac reports_tac :=
  first [ left; repeat split; reflexivity
        | right; repeat split; discriminate ].

(** C10: both operations return a result for every store behaviour and
    every id: [success = true] with the success message, or
    [success = false] with the failure message and the error's message;
    a missing task is a failed result with error 'Task not found'. *)
Theorem reminder_ops_return_results (f : Faults) (c : SaveClock) (db : Db) (taskId : nat) (rd : Z) :
  reports (fst (scheduleReminder f c db taskId rd))
          "Reminder scheduled successfully" "Failed to schedule reminder" /\
  reports (fst (cancelReminder f c db taskId))
          "Reminder cancelled successfully" "Failed to cancel reminder" /\
  (~ In taskId (ids db) -> find_error f = None ->
   fst (scheduleReminder f c db taskId rd) =
     mkOpResult false "Failed to schedule reminder" (Some "Task not found"%string) None /\
   fst (cancelReminder f c db taskId) =
     mkOpResult false "Failed to cancel reminder" (Some "Task not found"%string) None).
Proof.
  unfold scheduleReminder, cancelReminder, try_catch, exc_bind, findById.
  split; [|split].
  - destruct (find_error f); [reports_tac|].
    destruct (find _ _) as [x|] eqn:E; [|reports_tac].
    unfold save_reminder. destruct (save_error f); [reports_tac|].
    destruct (save_task _ _ _); reports_tac.
  - destruct (find_error f); [reports_tac|].
    destruct (find _ _) as [x|] eqn:E; [|reports_tac].
    unfold save_reminder. destruct (save_error f); [reports_tac|].
    destruct (save_task _ _ _); reports_tac.
  - intros Hn Hf. rewrite Hf, (find_id_none _ _ Hn). split; reflexivity.
Qed.

Lemma reminder_ops_return_results_witness :
  fst (scheduleReminder (mkFaults None None) c1_clock c2_db 9 5000) =
    mkOpResult false "Failed to schedule reminder" (Some "Task not found"%string) None /\
  fst (cancelReminder (mkFaults None None) c1_clock c2_db 9) =
    mkOpResult false "Failed to cancel reminder" (Some "Task not found"%string) None.
Proof.
  apply (proj2 (proj2 (reminder_ops_return_results (mkFaults None None) c1_clock c2_db 9 5000))).
  - simpl. intros [H | []]. discriminate.
  - reflexivity.
Defined.

(** * Further properties of the services and controllers *)

(** ** Counting lemmas *)

Lemma len_filter_mono {A : Type} (l : list A) (p q : A -> bool) :
  (forall x, In x l -> p x = true -> q x = true) ->
  (List.length (filter p l) <= List.length (filter q l))%nat.
Proof.
  induction l as [|a l IH]; intros H; simpl; [lia|].
  assert (IH' := IH (fun x Hx => H x (or_intror Hx))).
  destruct (p a) eqn:Hp.
  - rewrite (H a (or_introl eq_refl) Hp). simpl. lia.
  - destruct (q a); simpl; lia.
Qed.

(** Two disjoint sub-filters of [p] count at most as many as [p], and
    exactly as many when they cover it. *)
Lemma len_filter_disj {A : Type} (l : list A) (p q r : A -> bool) :
  (forall x, In x l -> q x = true -> r x = true -> False) ->
  (forall x, In x l -> q x = true -> p x = true) ->
  (forall x, In x l -> r x = true -> p x = true) ->
  (List.length (filter q l) + List.length (filter r l) <= List.length (filter p l))%nat.
Proof.
  induction l as [|a l IH]; intros Hd Hq Hr; simpl; [lia|].
  assert (IH' := IH (fun x Hx => Hd x (or_intror Hx))
                    (fun x Hx => Hq x (or_intror Hx))
                    (fun x Hx => Hr x (or_intror Hx))).
  specialize (Hd a (or_introl eq_refl)).
  specialize (Hq a (or_introl eq_refl)). specialize (Hr a (or_introl eq_refl)).
  destruct (q a) eqn:Eq, (r a) eqn:Er.
  - exfalso. auto.
  - rewrite Hq by reflexivity. simpl. lia.
  - rewrite Hr by reflexivity. simpl. lia.
  - destruct (p a); simpl; lia.
Qed.

Lemma len_filter_cover {A : Type} (l : list A) (p q r : A -> bool) :
  (forall x, In x l -> q x = true -> r x = true -> False) ->
  (forall x, In x l -> p x = true <-> q x = true \/ r x = true) ->
  (List.length (filter q l) + List.length (filter r l) = List.length (filter p l))%nat.
Proof.
  induction l as [|a l IH]; intros Hd Hc; simpl; [lia|].
  assert (IH' := IH (fun x Hx => Hd x (or_intror Hx))
                    (fun x Hx => Hc x (or_intror Hx))).
  specialize (Hd a (or_introl eq_refl)). specialize (Hc a (or_introl eq_refl)).
  destruct (q a) eqn:Eq, (r a) eqn:Er, (p a) eqn:Ep; simpl;
    try (exfalso; auto; fail); try lia;
    destruct Hc as [Hc1 Hc2]; try (specialize (Hc1 eq_refl); intuition discriminate);
    try (specialize (Hc2 (or_introl eq_refl)); discriminate);
    try (specialize (Hc2 (or_intror eq_refl)); discriminate).
Qed.

Lemma len_filter_pos {A : Type} (l : list A) (p : A -> bool) :
  (exists x, In x l /\ p x = true) <-> (0 < List.length (filter p l))%nat.
Proof.
  split.
  - intros [x [Hx Hp]].
    destruct (filter p l) eqn:E; simpl; [|lia].
    assert (In x (filter p l)) by (apply filter_In; auto).
    rewrite E in H. contradiction.
  - destruct (filter p l) as [|x r] eqn:E; simpl; [lia|]. intros _.
    assert (Hx : In x (filter p l)) by (rewrite E; left; reflexivity).
    apply filter_In in Hx. exists x. exact Hx.
Qed.

(** ** [getReminderStats] *)

(** X1: the reminder statistics are consistent: overdue reminders are
    among the active ones, and active and sent reminders are disjoint
    classes of the enabled ones. *)
Theorem getReminderStats_bounds (now : Z) (db : Db) :
  let s := getReminderStats now db in
  0 <= overdueReminders s <= activeReminders s /\
  activeReminders s + sentReminders s <= totalReminders s.
Proof.
  simpl. unfold countAll. split.
  - split; [lia|]. apply Nat2Z.inj_le. apply len_filter_mono.
    intros x _ H. apply andb_true_iff in H as [H H3].
    apply andb_true_iff in H as [H1 _]. rewrite H1, H3. reflexivity.
  - rewrite <- Nat2Z.inj_add. apply Nat2Z.inj_le. apply len_filter_disj.
    + intros x _ H1 H2. apply andb_true_iff in H1 as [_ H1].
      apply andb_true_iff in H2 as [_ H2].
      destruct (notified (reminder x)) as [[]|]; discriminate.
    + intros x _ H. apply andb_true_iff in H as [H _]. exact H.
    + intros x _ H. apply andb_true_iff in H as [H _]. exact H.
Qed.

(** X2: when every enabled reminder carries a [notified] flag (as the
    schema's default gives every document created through Mongoose),
    every enabled reminder is either active or sent. *)
Theorem getReminderStats_partition (now : Z) (db : Db) :
  (forall t, In t (tasks db) -> field_true (enabled (reminder t)) = true ->
             notified (reminder t) <> None) ->
  activeReminders (getReminderStats now db) + sentReminders (getReminderStats now db)
  = totalReminders (getReminderStats now db).
Proof.
  intros Hn. simpl. unfold countAll.
  rewrite <- Nat2Z.inj_add. f_equal. apply len_filter_cover.
  - intros x _ H1 H2. apply andb_true_iff in H1 as [_ H1].
    apply andb_true_iff in H2 as [_ H2].
    destruct (notified (reminder x)) as [[]|]; discriminate.
  - intros x Hx. specialize (Hn x Hx). split.
    + intros He. specialize (Hn He). rewrite He. simpl.
      destruct (notified (reminder x)) as [[]|]; simpl; auto; contradiction.
    + intros [H | H]; apply andb_true_iff in H as [H _]; exact H.
Qed.

(** X3: the count of overdue reminders never decreases as time passes
    (with no write in between). *)
Theorem getReminderStats_overdue_mono (now1 now2 : Z) (db : Db) :
  now1 <= now2 ->
  overdueReminders (getReminderStats now1 db) <= overdueReminders (getReminderStats now2 db).
Proof.
  intros Hle. simpl. unfold countAll. apply Nat2Z.inj_le. apply len_filter_mono.
  intros x _ H. apply andb_true_iff in H as [H H3].
  apply andb_true_iff in H as [H1 H2]. rewrite H1, H3. simpl.
  unfold date_lt in *. destruct (reminderDate (reminder x)); [|discriminate].
  apply Z.ltb_lt in H2. rewrite andb_true_r. apply Z.ltb_lt. lia.
Qed.

(** ** Overdue tasks *)

(** X4: [getOverdueTasks] returns exactly the user's non-archived tasks
    whose [isOverdue] virtual is true. *)
Theorem getOverdueTasks_isOverdue (now : Z) (db : Db) (uid : nat) (t : Task) :
  In t (getOverdueTasks now db uid) <->
  In t (tasks db) /\ userId t = uid /\ isArchived t = false /\ isOverdue now t = true.
Proof.
  unfold getOverdueTasks. rewrite filter_In.
  unfold isOverdue, date_lt, status_open.
  destruct (dueDate t) as [d|]; destruct (status t); destruct (isArchived t);
    destruct (Nat.eqb (userId t) uid) eqn:E; simpl;
    rewrite ?Nat.eqb_eq, ?Nat.eqb_neq in E;
    rewrite ?andb_false_r, ?andb_true_r; intuition congruence.
Qed.

(** ** [generateUserSummary] *)

(** X5: the summary's counts are consistent: completed and open tasks
    are disjoint parts of the total, and overdue and due-today tasks are
    open ones. *)
Theorem generateUserSummary_bounds (tz now : Z) (db : Db) (uid : nat) :
  let s := generateUserSummary tz now db uid in
  completedTasks s + pendingTasks s <= totalTasks s /\
  0 <= overdueTasks s <= pendingTasks s /\
  0 <= todayTasks s <= pendingTasks s.
Proof.
  unfold generateUserSummary, summary_dates, countDocuments. simpl.
  set (l := tasks db).
  assert (Hopen :
    (List.length (filter (fun t => Nat.eqb (userId t) uid &&
        match status t with Pending => negb (isArchived t) | _ => false end) l)
     + List.length (filter (fun t => Nat.eqb (userId t) uid &&
        match status t with InProgress => negb (isArchived t) | _ => false end) l)
     = List.length (filter (fun t => Nat.eqb (userId t) uid &&
        (status_open (status t) && negb (isArchived t))) l))%nat).
  { apply len_filter_cover.
    - intros x _. destruct (Nat.eqb (userId x) uid), (status x); simpl; discriminate.
    - intros x _. destruct (Nat.eqb (userId x) uid), (status x), (isArchived x);
        simpl; intuition discriminate. }
  repeat split.
  - rewrite <- !Nat2Z.inj_add. apply Nat2Z.inj_le. rewrite Hopen.
    apply len_filter_disj.
    + intros x _. destruct (Nat.eqb (userId x) uid), (status x); simpl; discriminate.
    + intros x _. destruct (Nat.eqb (userId x) uid), (isArchived x);
        simpl; rewrite ?andb_false_r; auto.
    + intros x _. destruct (Nat.eqb (userId x) uid), (isArchived x);
        simpl; rewrite ?andb_false_r; auto.
  - lia.
  - rewrite <- Nat2Z.inj_add. apply Nat2Z.inj_le. rewrite Hopen.
    apply len_filter_mono. intros x _.
    destruct (Nat.eqb (userId x) uid), (status x), (isArchived x);
      simpl; rewrite ?andb_false_r; auto.
  - lia.
  - rewrite <- Nat2Z.inj_add. apply Nat2Z.inj_le. rewrite Hopen.
    apply len_filter_mono. intros x _.
    destruct (Nat.eqb (userId x) uid), (status x), (isArchived x);
      simpl; rewrite ?andb_false_r; auto.
Qed.

(** X6: the summary's overdue count is at least the number of tasks
    [Task.getOverdueTasks] returns for the user at the same instant. *)
Theorem generateUserSummary_overdue_ge (tz now : Z) (db : Db) (uid : nat) :
  Z.of_nat (List.length (getOverdueTasks now db uid))
  <= overdueTasks (generateUserSummary tz now db uid).
Proof.
  pose proof (setHours_end_of_day_ge tz now) as Hc.
  unfold generateUserSummary, summary_dates, countDocuments, getOverdueTasks. simpl.
  apply Nat2Z.inj_le. apply len_filter_mono. intros x _ H.
  unfold date_lt in *. destruct (dueDate x) as [d|];
    [|rewrite andb_false_r in H; discriminate].
  repeat (apply andb_true_iff in H as [H ?]).
  rewrite H. simpl. apply Z.ltb_lt in H2.
  rewrite H1, H0. rewrite andb_true_r, andb_true_r. apply Z.ltb_lt. lia.
Qed.

(** ** Reminder writes followed by a scan *)


(** ** Reminder writes followed by a scan *)

Lemma save_reminder_store (f : Faults) (c : SaveClock) (db db' : Db) (snap : Task)
    (en : option bool) (rd : option Z) (nt : option bool) :
  save_reminder f c db snap en rd nt = Ok db' ->
  tasks db' = map (fun x => if Nat.eqb (task_id x) (task_id snap)
                            then reminder_saved c snap en rd nt x else x) (tasks db) /\
  users db' = users db.
Proof.
  unfold save_reminder. destruct (save_error f); [discriminate|].
  destruct (save_task _ _ _) as [d|] eqn:Hs; [|discriminate].
  intros H; inversion H; subst. apply save_task_some. exact Hs.
Qed.

(** The store after [scheduleReminder] for the document [findById]
    returns. *)
Lemma scheduleReminder_found (f : Faults) (c : SaveClock) (db : Db) (t : Task) (rd : Z) :
  find_error f = None -> save_error f = None ->
  find (fun x => Nat.eqb (task_id x) (task_id t)) (tasks db) = Some t ->
  tasks (snd (scheduleReminder f c db (task_id t) rd)) =
    map (fun x => if Nat.eqb (task_id x) (task_id t)
                  then reminder_saved c t (Some true) (Some rd) (Some false) x else x)
        (tasks db) /\
  users (snd (scheduleReminder f c db (task_id t) rd)) = users db.
Proof.
  intros Hf Hs Hfind. unfold scheduleReminder, findById, try_catch, exc_bind.
  rewrite Hf, Hfind.
  destruct (save_reminder f c db t (Some true) (Some rd) (Some false)) as [db'|e] eqn:Hsv.
  - apply save_reminder_store in Hsv. exact Hsv.
  - exfalso. revert Hsv. unfold save_reminder. rewrite Hs.
    destruct (save_task_exists (reminder_saved c t (Some true) (Some rd) (Some false))
                db (task_id t)) as [d Hd].
    + apply find_some in Hfind as [Hin _]. apply in_map. exact Hin.
    + rewrite Hd. discriminate.
Qed.

Lemma cancelReminder_store (f : Faults) (c : SaveClock) (db : Db) (taskId : nat) :
  success (fst (cancelReminder f c db taskId)) = true ->
  exists snap, task_id snap = taskId /\
    tasks (snd (cancelReminder f c db taskId)) =
      map (fun x => if Nat.eqb (task_id x) taskId
                    then reminder_saved c snap (Some false) None (Some false) x else x)
          (tasks db) /\
    users (snd (cancelReminder f c db taskId)) = users db.
Proof.
  unfold cancelReminder, findById, try_catch, exc_bind.
  destruct (find_error f); [discriminate|].
  destruct (find _ _) as [snap|] eqn:Hfind; [|discriminate].
  destruct (save_reminder f c db snap (Some false) None (Some false)) as [db'|e] eqn:Hsv;
    [|discriminate].
  intros _. apply find_some in Hfind as [_ Hid]. apply Nat.eqb_eq in Hid.
  exists snap. split; [exact Hid|].
  apply save_reminder_store in Hsv. rewrite Hid in Hsv. exact Hsv.
Qed.

(** Whatever the scanner, a notified task is a stored, enabled and
    non-archived one. *)
Lemma scan_notify_origin (now : Z) (deliver : Task -> bool)
    (save : Task -> option SaveClock) (db : Db) i b :
  In (Notify i b) (snd (checkAndSendReminders now deliver save db)) \/
  In (Notify i b) (snd (checkReminders now deliver save db)) ->
  exists x, In x (tasks db) /\ task_id x = i /\
            field_true (enabled (reminder x)) = true /\ isArchived x = false.
Proof.
  intros [H | H].
  - apply (run_cycle_notify_origin _ _ _ _ _ _ _ _ (Marked_not_Notify _ _)) in H
      as [x [Hx [Hd Hn]]].
    apply handle_ns_notify in Hn as [Hi _].
    unfold due_ns in Hd. repeat (apply andb_true_iff in Hd as [Hd ?]).
    exists x. repeat split; auto. apply negb_true_iff. assumption.
  - apply (run_cycle_notify_origin _ _ _ _ _ _ _ _ (Saved_not_Notify _ _)) in H
      as [x [Hx [Hd Hn]]].
    apply handle_cr_notify in Hn as [Hi _].
    unfold due_cr in Hd. repeat (apply andb_true_iff in Hd as [Hd ?]).
    exists x. repeat split; auto. apply negb_true_iff. assumption.
Qed.

(** X7: after [scheduleReminder] succeeds for a stored, open, non-archived
    task [t] with an owner ([t] being the document [findById] returns), a
    [checkAndSendReminders] cycle at any instant within 5 minutes of the
    new reminder date marks the reminder sent (when the marking save is
    sent), and it calls the notifier for the task when the owner's email
    preference is not [false]. *)
Theorem scheduleReminder_then_scan (f : Faults) (c : SaveClock) (db : Db) (t : Task)
    (u : User) (rd now : Z) (deliver : Task -> bool) (save : Task -> option SaveClock) :
  find_error f = None -> save_error f = None ->
  find (fun x => Nat.eqb (task_id x) (task_id t)) (tasks db) = Some t ->
  status_open (status t) = true -> isArchived t = false ->
  populate db t = Some u -> rd <= reminderWindow now ->
  save (reminder_saved c t (Some true) (Some rd) (Some false) t) <> None ->
  marked (fst (checkAndSendReminders now deliver save
                 (snd (scheduleReminder f c db (task_id t) rd)))) (task_id t) /\
  (wants_email_ns u = true ->
   In (Notify (task_id t) (deliver (reminder_saved c t (Some true) (Some rd) (Some false) t)))
      (snd (checkAndSendReminders now deliver save
              (snd (scheduleReminder f c db (task_id t) rd))))).
Proof.
  intros Hf Hs Hfind Ho Ha Hu Hrd Hsave.
  destruct (scheduleReminder_found f c db t rd Hf Hs Hfind) as [Ht Husr].
  set (db1 := snd (scheduleReminder f c db (task_id t) rd)) in *.
  set (t1 := reminder_saved c t (Some true) (Some rd) (Some false) t) in *.
  assert (Hin1 : In t1 (tasks db1)).
  { rewrite Ht. apply in_map_iff. exists t. rewrite Nat.eqb_refl.
    split; [reflexivity|]. apply find_some in Hfind. apply Hfind. }
  assert (Hdue : due_ns now t1 = true).
  { unfold due_ns, t1. simpl. rewrite Ho, Ha. apply Z.leb_le in Hrd.
    unfold reminderWindow in *. rewrite Hrd. reflexivity. }
  assert (Hpop : populate db1 t1 = Some u).
  { unfold populate in *. rewrite Husr. exact Hu. }
  split.
  - apply (run_cycle_marks (due_ns now) (handle_ns deliver) set_notified Marked save db1 t1
             (fun _ _ _ => eq_refl) (fun _ _ _ => eq_refl) Hin1 Hdue).
    + rewrite Hpop. reflexivity.
    + exact Hsave.
  - intros Hw.
    apply (run_cycle_handled (due_ns now) (handle_ns deliver) set_notified Marked save
             db1 t1); [exact Hin1 | exact Hdue|].
    rewrite Hpop. simpl. rewrite Hw. left. reflexivity.
Qed.

(** X8: once [cancelReminder] reports success, neither scanner calls the
    notifier for the task, at any instant and whatever the delivery and
    save outcomes. *)
Theorem cancelReminder_then_scan (f : Faults) (c : SaveClock) (db : Db) (taskId : nat) :
  success (fst (cancelReminder f c db taskId)) = true ->
  forall now deliver save i b,
    In (Notify i b) (snd (checkAndSendReminders now deliver save
                           (snd (cancelReminder f c db taskId)))) \/
    In (Notify i b) (snd (checkReminders now deliver save
                           (snd (cancelReminder f c db taskId)))) ->
    i <> taskId.
Proof.
  intros Hok now deliver save i b H.
  destruct (cancelReminder_store f c db taskId Hok) as [snap [_ [Ht _]]].
  apply scan_notify_origin in H as [x [Hx [Hi [He _]]]].
  rewrite Ht in Hx. apply in_map_iff in Hx as [y [Hy _]].
  intros Heq. subst i.
  destruct (Nat.eqb (task_id y) taskId) eqn:E.
  - subst x. discriminate He.
  - subst x. apply Nat.eqb_neq in E. contradiction.
Qed.

(** X9: once [archiveTask] archives a task (answer other than 404),
    neither scanner calls the notifier for it, provided task ids are
    unique in the store. *)
Theorem archiveTask_then_scan (db : Db) (now : Z) (taskId uid : nat) :
  NoDup (ids db) ->
  snd (archiveTask db now taskId uid true) <> None ->
  forall now' deliver save i b,
    In (Notify i b) (snd (checkAndSendReminders now' deliver save
                           (fst (archiveTask db now taskId uid true)))) \/
    In (Notify i b) (snd (checkReminders now' deliver save
                           (fst (archiveTask db now taskId uid true)))) ->
    i <> taskId.
Proof.
  intros Hnd Hok now' deliver save i b H.
  unfold archiveTask, updateTask in *.
  destruct (existsb _ (tasks db)) eqn:Hex; simpl in *; [|contradiction].
  apply existsb_exists in Hex as [z [Hz Hsel]].
  apply andb_true_iff in Hsel as [Hz1 Hz2].
  apply Nat.eqb_eq in Hz1, Hz2.
  apply scan_notify_origin in H as [x [Hx [Hi [_ Ha]]]]. simpl in Hx.
  apply in_map_iff in Hx as [y [Hy Hiny]].
  intros Heq. subst i.
  destruct (Nat.eqb (task_id y) taskId && Nat.eqb (userId y) uid) eqn:E.
  - subst x. discriminate Ha.
  - subst x. apply andb_false_iff in E as [E | E]; apply Nat.eqb_neq in E.
    + contradiction.
    + apply E. rewrite <- Hz2.
      f_equal. apply (NoDup_ids_inj (tasks db)); auto. congruence.
Qed.

(** ** What a scan cycle writes *)

(** X10: a scan cycle of either scanner adds, removes and reorders no task
    and leaves the users alone; each document is left as it is or gets the
    scanner's save: [checkAndSendReminders] writes [notified = true],
    [updatedAt], [lastModified] and [syncVersion] (from a snapshot with the
    same id), [checkReminders] only [lastModified] and [syncVersion]. *)
Theorem scan_writes_frame (now : Z) (deliver : Task -> bool)
    (save : Task -> option SaveClock) (db : Db) :
  (Forall2 frame_ns (tasks db) (tasks (fst (checkAndSendReminders now deliver save db))) /\
   users (fst (checkAndSendReminders now deliver save db)) = users db) /\
  (Forall2 frame_cr (tasks db) (tasks (fst (checkReminders now deliver save db))) /\
   users (fst (checkReminders now deliver save db)) = users db).
Proof.
  split; split.
  - exact (run_cycle_frame (due_ns now) (handle_ns deliver) set_notified Marked save db
             (fun _ _ _ => eq_refl) set_notified_twice).
  - exact (proj2 (run_cycle_ids (due_ns now) (handle_ns deliver) set_notified Marked save db
                    (fun _ _ _ => eq_refl))).
  - exact (run_cycle_frame (due_cr now) (handle_cr deliver) set_hook_fields Saved save db
             (fun _ _ _ => eq_refl) set_hook_fields_twice).
  - exact (proj2 (run_cycle_ids (due_cr now) (handle_cr deliver) set_hook_fields Saved save
                    db (fun _ _ _ => eq_refl))).
Qed.

(** X11: a due task whose owner document is missing is neither notified
    nor written by either scanner (task ids unique). *)
Theorem missing_owner_untouched (now : Z) (deliver : Task -> bool)
    (save : Task -> option SaveClock) (db : Db) (t : Task) :
  NoDup (ids db) -> In t (tasks db) -> populate db t = None ->
  (forall b, ~ In (Notify (task_id t) b) (snd (checkAndSendReminders now deliver save db))) /\
  (forall b, ~ In (Notify (task_id t) b) (snd (checkReminders now deliver save db))) /\
  In t (tasks (fst (checkAndSendReminders now deliver save db))) /\
  In t (tasks (fst (checkReminders now deliver save db))).
Proof.
  intros Hnd Hin Hpop.
  assert (Hsame : forall x, In x (tasks db) -> task_id x = task_id t -> x = t)
    by (intros x Hx Hid; apply (NoDup_ids_inj (tasks db)); auto).
  assert (Hsel : forall (due : Task -> bool) (handle : Handler),
             snd (handle None t) = false ->
             forall u x, In (u, x) (map (fun t => (populate db t, t)) (filter due (tasks db))) ->
                         task_id x = task_id t -> snd (handle u x) = false).
  { intros due handle Hh u x Hux Hid.
    apply in_map_iff in Hux as [y [Hy Hiny]]. inversion Hy; subst; clear Hy.
    apply filter_In in Hiny as [Hiny _].
    rewrite (Hsame x Hiny Hid), Hpop. exact Hh. }
  repeat split.
  - intros b H.
    apply (run_cycle_notify_origin _ _ _ _ _ _ _ _ (Marked_not_Notify _ _)) in H
      as [x [Hx [_ Hn]]].
    assert (Hi : task_id t = task_id x) by (apply handle_ns_notify in Hn; tauto).
    rewrite (Hsame x Hx (eq_sym Hi)), Hpop in Hn. simpl in Hn. destruct Hn.
  - intros b H.
    apply (run_cycle_notify_origin _ _ _ _ _ _ _ _ (Saved_not_Notify _ _)) in H
      as [x [Hx [_ Hn]]].
    assert (Hi : task_id t = task_id x) by (apply handle_cr_notify in Hn; tauto).
    rewrite (Hsame x Hx (eq_sym Hi)), Hpop in Hn. simpl in Hn. destruct Hn.
  - unfold checkAndSendReminders, run_cycle.
    apply dispatch_all_untouched with (i := task_id t);
      [apply Hsel; reflexivity | exact Hin | reflexivity].
  - unfold checkReminders, run_cycle.
    apply dispatch_all_untouched with (i := task_id t);
      [apply Hsel; reflexivity | exact Hin | reflexivity].
Qed.


(** ** The task controller's writes *)

Lemma others_map (uid : nat) (f : Task -> Task) (l : list Task) :
  (forall x, userId (f x) = userId x) -> (forall x, userId x <> uid -> f x = x) ->
  filter (fun x => negb (Nat.eqb (userId x) uid)) (map f l) =
  filter (fun x => negb (Nat.eqb (userId x) uid)) l.
Proof.
  intros Hu Hf. induction l as [|a l IH]; simpl; [reflexivity|].
  rewrite Hu. destruct (Nat.eqb (userId a) uid) eqn:E; simpl; [exact IH|].
  apply Nat.eqb_neq in E. rewrite (Hf a E). f_equal. exact IH.
Qed.

Lemma others_filter (uid : nat) (k : Task -> bool) (l : list Task) :
  (forall x, userId x <> uid -> k x = true) ->
  filter (fun x => negb (Nat.eqb (userId x) uid)) (filter k l) =
  filter (fun x => negb (Nat.eqb (userId x) uid)) l.
Proof.
  intros Hk. induction l as [|a l IH]; simpl; [reflexivity|].
  destruct (Nat.eqb (userId a) uid) eqn:E; simpl.
  - destruct (k a); simpl; [rewrite E|]; exact IH.
  - apply Nat.eqb_neq in E. rewrite (Hk a E). simpl.
    apply Nat.eqb_neq in E. rewrite E. simpl. f_equal. exact IH.
Qed.

(** A map that fixes every task of another user keeps each of them. *)
Lemma others_stay_map (uid : nat) (f : Task -> Task) (l : list Task) (x : Task) :
  (forall y, userId y <> uid -> f y = y) -> In x l -> userId x <> uid -> In x (map f l).
Proof.
  intros Hf Hx Hu. apply in_map_iff. exists x. split; [apply Hf; exact Hu | exact Hx].
Qed.

Lemma apply_update_userId (now : Z) (b : UpdateBody) (x : Task) :
  ub_userId b = None -> userId (apply_update now b x) = userId x.
Proof. intros H. unfold apply_update. rewrite H. reflexivity. Qed.

Lemma owned_other (id : option nat) (uid : nat) (x : Task) :
  userId x <> uid -> owned id uid x = false.
Proof.
  intros Hx. unfold owned. destruct id; [|reflexivity].
  apply Nat.eqb_neq in Hx. rewrite Hx, andb_false_r. reflexivity.
Qed.

Lemma sel_other (taskId uid : nat) (x : Task) :
  userId x <> uid -> Nat.eqb (task_id x) taskId && Nat.eqb (userId x) uid = false.
Proof. intros Hx. apply Nat.eqb_neq in Hx. rewrite Hx, andb_false_r. reflexivity. Qed.

Lemma sync_change_others (db db' : Db) (uid : nat) (fault : option string)
    (c : SaveClock) (ch : Change) rs :
  ub_userId (effective_set (ch_data ch)) = None ->
  sync_change db uid fault c ch = Ok (db', rs) -> others uid db' = others uid db.
Proof.
  intros Hb. unfold sync_change, others.
  destruct (ch_type ch); [| | |intros H; inversion H; reflexivity];
    destruct fault; try discriminate.
  - destruct (existsb _ _); [discriminate|]. intros H; inversion H; subst. simpl.
    rewrite filter_app. simpl. rewrite Nat.eqb_refl. simpl. apply app_nil_r.
  - intros H; inversion H; subst. simpl.
    apply others_map.
    + intros x. destruct (owned _ _ x); [apply apply_update_userId; exact Hb | reflexivity].
    + intros x Hx. rewrite (owned_other _ _ _ Hx). reflexivity.
  - intros H; inversion H; subst. simpl. apply others_filter.
    intros x Hx. rewrite (owned_other _ _ _ Hx). reflexivity.
Qed.

Lemma sync_change_stay (db db' : Db) (uid : nat) (fault : option string)
    (c : SaveClock) (ch : Change) rs (x : Task) :
  sync_change db uid fault c ch = Ok (db', rs) ->
  In x (tasks db) -> userId x <> uid -> In x (tasks db').
Proof.
  unfold sync_change. intros H Hx Hu.
  destruct (ch_type ch); [| | |inversion H; subst; exact Hx];
    destruct fault; try discriminate.
  - destruct (existsb _ _); [discriminate|]. inversion H; subst. simpl.
    apply in_or_app. left. exact Hx.
  - inversion H; subst. simpl. apply (others_stay_map uid); [|exact Hx | exact Hu].
    intros y Hy. rewrite (owned_other _ _ _ Hy). reflexivity.
  - inversion H; subst. simpl. apply filter_In. split; [exact Hx|].
    rewrite (owned_other _ _ _ Hu). reflexivity.
Qed.

(** One step of the loop, whatever the change's outcome. *)
Lemma sync_step_cases (db : Db) (uid : nat) (fault : option string) (c : SaveClock)
    (ch : Change) (db1 : Db) (rs1 : list SyncResult) :
  try_catch (sync_change db uid fault c ch) (fun e => (db, [SyncError (error_id ch) e]))
    = (db1, rs1) ->
  sync_change db uid fault c ch = Ok (db1, rs1) \/
  (db1 = db /\ exists e, sync_change db uid fault c ch = Throw e /\
                         rs1 = [SyncError (error_id ch) e]).
Proof.
  unfold try_catch. destruct (sync_change db uid fault c ch) as [[d r]|e]; intros H;
    inversion H; subst; [left; reflexivity | right; eauto].
Qed.

Lemma sync_loop_others (db : Db) (uid : nat) faults clock n cs :
  (forall ch, In (Some ch) cs -> ub_userId (effective_set (ch_data ch)) = None) ->
  others uid (fst (sync_loop db uid faults clock n cs)) = others uid db.
Proof.
  revert db n. induction cs as [|[ch|] cs IH]; intros db n Hcs; simpl; try reflexivity.
  destruct (try_catch _ _) as [db1 rs1] eqn:Hc.
  destruct (sync_loop db1 uid faults clock (S n) cs) as [db2 r2] eqn:Hl. simpl.
  assert (IH' := IH db1 (S n) (fun ch' H => Hcs ch' (or_intror H))).
  rewrite Hl in IH'. simpl in IH'. rewrite IH'.
  destruct (sync_step_cases _ _ _ _ _ _ _ Hc) as [Ho | [-> _]]; [|reflexivity].
  apply (sync_change_others _ _ _ _ _ _ _ (Hcs ch (or_introl eq_refl)) Ho).
Qed.

Lemma sync_loop_stay (db : Db) (uid : nat) faults clock n cs (x : Task) :
  In x (tasks db) -> userId x <> uid ->
  In x (tasks (fst (sync_loop db uid faults clock n cs))).
Proof.
  revert db n. induction cs as [|[ch|] cs IH]; intros db n Hx Hu; simpl; try exact Hx.
  destruct (try_catch _ _) as [db1 rs1] eqn:Hc.
  destruct (sync_loop db1 uid faults clock (S n) cs) as [db2 r2] eqn:Hl. simpl.
  assert (Hx1 : In x (tasks db1)).
  { destruct (sync_step_cases _ _ _ _ _ _ _ Hc) as [Ho | [-> _]]; [|exact Hx].
    exact (sync_change_stay _ _ _ _ _ _ _ _ Ho Hx Hu). }
  specialize (IH db1 (S n) Hx1 Hu). rewrite Hl in IH. exact IH.
Qed.

(** The store [syncTasks] leaves is the loop's, or the store itself. *)
Lemma syncTasks_store (db : Db) (uid : nat) lst ff faults clock lc :
  fst (syncTasks db uid lst ff faults clock lc) = db \/
  exists cs, fst (syncTasks db uid lst ff faults clock lc) =
             fst (sync_loop db uid faults clock 0 cs) /\ lc = Some cs.
Proof.
  unfold syncTasks. destruct lst as [since|]; [|left; reflexivity].
  destruct ff; [left; reflexivity|].
  destruct lc as [cs|]; [|left; reflexivity].
  right. exists cs. split; [|reflexivity].
  destruct (sync_loop db uid faults clock 0 cs) as [d [rs|e]]; reflexivity.
Qed.

Lemma bulk_others_map (uid : nat) (p : Task -> bool) (g : Task -> Task) (l : list Task) :
  (forall x, userId (g x) = userId x) -> (forall x, userId x <> uid -> p x = false) ->
  others uid {| tasks := map (fun x => if p x then g x else x) l; users := [] |} =
  filter (fun x => negb (Nat.eqb (userId x) uid)) l.
Proof.
  intros Hg Hp. unfold others. simpl. apply others_map.
  - intros x. destruct (p x); [apply Hg | reflexivity].
  - intros x Hx. rewrite (Hp x Hx). reflexivity.
Qed.

(** X13: no write of the task controller called for user [uid] removes,
    reorders or changes another user's task: [archiveTask] and
    [deleteTask] leave the other users' tasks exactly as before, in the
    same order; so do [updateTask], [bulkUpdateTasks] and [syncTasks] when
    the update document (every change's [data], for [syncTasks]) carries no
    [userId] key the deletion misses. Whatever the documents, every task of
    another user is still stored afterwards. *)
Theorem controllers_keep_other_users (db : Db) (uid : nat) :
  (forall now taskId a, others uid (fst (archiveTask db now taskId uid a)) = others uid db) /\
  (forall taskId, others uid (fst (deleteTask db taskId uid)) = others uid db) /\
  (forall now taskId d, ub_userId (effective_set (delete_userId d)) = None ->
     others uid (fst (updateTask db now taskId uid d)) = others uid db) /\
  (forall now taskIds upd w,
     (forall d, upd = Some d -> ub_userId (effective_set (delete_userId d)) = None) ->
     others uid (fst (bulkUpdateTasks db now uid taskIds upd w)) = others uid db) /\
  (forall lst ff faults clock lc,
     (forall cs ch, lc = Some cs -> In (Some ch) cs ->
                    ub_userId (effective_set (ch_data ch)) = None) ->
     others uid (fst (syncTasks db uid lst ff faults clock lc)) = others uid db) /\
  (forall x, In x (others uid db) ->
     (forall now taskId d, In x (tasks (fst (updateTask db now taskId uid d)))) /\
     (forall now taskIds upd w, In x (tasks (fst (bulkUpdateTasks db now uid taskIds upd w)))) /\
     (forall lst ff faults clock lc, In x (tasks (fst (syncTasks db uid lst ff faults clock lc))))).
Proof.
  assert (Hupd : forall now taskId d, ub_userId (effective_set (delete_userId d)) = None ->
             others uid (fst (updateTask db now taskId uid d)) = others uid db).
  { intros now taskId d Hd. unfold updateTask, others.
    destruct (existsb _ _); simpl; [|reflexivity].
    apply others_map.
    - intros x. destruct (_ && _); [apply apply_update_userId; exact Hd | reflexivity].
    - intros x Hx. rewrite (sel_other _ _ _ Hx). reflexivity. }
  split; [|split; [|split; [|split; [|split]]]].
  - intros now taskId a. unfold archiveTask.
    rewrite <- (Hupd now taskId
                  (mkUpdateDoc (mkUpdateBody None None None (Some a) None) None) eq_refl).
    destruct (updateTask _ _ _ _ _) as [db' []]; reflexivity.
  - intros taskId. unfold deleteTask, others.
    destruct (existsb _ _); simpl; [|reflexivity].
    apply others_filter.
    intros x Hx. rewrite (sel_other _ _ _ Hx). reflexivity.
  - exact Hupd.
  - intros now [taskIds|] upd w Hd; [|reflexivity]. unfold bulkUpdateTasks.
    destruct taskIds as [|i taskIds]; [reflexivity|].
    destruct upd as [d|]; [|reflexivity].
    specialize (Hd d eq_refl).
    assert (Hp : forall x, userId x <> uid ->
              existsb (Nat.eqb (task_id x)) (i :: taskIds) && Nat.eqb (userId x) uid = false).
    { intros x Hx. apply Nat.eqb_neq in Hx. rewrite Hx, andb_false_r. reflexivity. }
    destruct w as [|m applied]; unfold others; cbn [tasks]; apply others_map.
    + intros x. destruct (_ && _); [apply apply_update_userId; exact Hd | reflexivity].
    + intros x Hx. rewrite (Hp x Hx). reflexivity.
    + intros x. destruct (_ && _ && _); [apply apply_update_userId; exact Hd | reflexivity].
    + intros x Hx. rewrite (Hp x Hx). reflexivity.
  - intros lst ff faults clock lc Hlc.
    destruct (syncTasks_store db uid lst ff faults clock lc) as [-> | [cs [-> ->]]];
      [reflexivity|].
    apply sync_loop_others. intros ch Hch. apply (Hlc cs); [reflexivity | exact Hch].
  - intros x Hx. apply filter_In in Hx as [Hx Hu].
    apply negb_true_iff, Nat.eqb_neq in Hu.
    split; [|split].
    + intros now taskId d. unfold updateTask.
      destruct (existsb _ _); simpl; [|exact Hx].
      apply (others_stay_map uid); [|exact Hx | exact Hu].
      intros y Hy. rewrite (sel_other _ _ _ Hy). reflexivity.
    + intros now [taskIds|] upd w; [|exact Hx]. unfold bulkUpdateTasks.
      destruct taskIds as [|i taskIds]; [exact Hx|].
      destruct upd as [d|]; [|exact Hx].
      assert (Hp : forall y, userId y <> uid ->
                existsb (Nat.eqb (task_id y)) (i :: taskIds) && Nat.eqb (userId y) uid = false).
      { intros y Hy. apply Nat.eqb_neq in Hy. rewrite Hy, andb_false_r. reflexivity. }
      destruct w as [|m applied]; cbn [tasks];
        apply (others_stay_map uid); try exact Hx; try exact Hu;
        intros y Hy; rewrite (Hp y Hy); reflexivity.
    + intros lst ff faults clock lc.
      destruct (syncTasks_store db uid lst ff faults clock lc) as [-> | [cs [-> _]]];
        [exact Hx|].
      apply sync_loop_stay; assumption.
Qed.

(** X14: deleting is idempotent: right after a [deleteTask], the same
    request answers 404 and leaves the store unchanged. *)
Theorem deleteTask_twice (db : Db) (taskId uid : nat) :
  deleteTask (fst (deleteTask db taskId uid)) taskId uid
  = (fst (deleteTask db taskId uid), false).
Proof.
  unfold deleteTask. destruct (existsb _ (tasks db)) eqn:E1; simpl.
  - replace (existsb _ (filter _ _)) with false; [reflexivity|]. symmetry.
    apply not_true_iff_false. intros H. apply existsb_exists in H as [x [Hx Hs]].
    apply filter_In in Hx as [_ Hn]. rewrite Hs in Hn. discriminate.
  - rewrite E1. reflexivity.
Qed.

Lemma map_sel_none (p : Task -> bool) (g : Task -> Task) (l : list Task) :
  existsb p l = false -> map (fun x => if p x then g x else x) l = l.
Proof.
  induction l as [|a l IH]; simpl; [reflexivity|].
  intros H. apply orb_false_iff in H as [H1 H2]. rewrite H1, IH; [reflexivity | exact H2].
Qed.

(** X15: archiving at [now1] then unarchiving at [now2] a task that was
    not archived gives back the store as it was, except that the task's
    [updatedAt] is [now2]: the effect of an update with an empty body at
    [now2]. *)
Theorem archiveTask_round_trip (db : Db) (now1 now2 : Z) (taskId uid : nat) :
  (forall x, In x (tasks db) -> task_id x = taskId -> userId x = uid ->
             isArchived x = false) ->
  fst (archiveTask (fst (archiveTask db now1 taskId uid true)) now2 taskId uid false) =
  {| tasks := map (fun x => if Nat.eqb (task_id x) taskId && Nat.eqb (userId x) uid
                            then apply_update now2 (mkUpdateBody None None None None None) x
                            else x) (tasks db);
     users := users db |}.
Proof.
  intros Hna. unfold archiveTask, updateTask.
  destruct (existsb _ (tasks db)) eqn:E1; simpl.
  - replace (existsb _ (map _ (tasks db))) with true.
    + simpl. f_equal.
      rewrite map_map. apply map_ext_in.
      intros x Hx.
      destruct (Nat.eqb (task_id x) taskId && Nat.eqb (userId x) uid) eqn:Ex;
        simpl; rewrite Ex; [|reflexivity].
      apply andb_true_iff in Ex as [E2 E3].
      apply Nat.eqb_eq in E2, E3.
      specialize (Hna x Hx E2 E3).
      destruct x as [i u0 st dd ar rm lm sv ua]. simpl in *. subst. reflexivity.
    + symmetry. apply existsb_exists in E1 as [x [Hx Ex]].
      apply existsb_exists.
      exists (apply_update now1 (mkUpdateBody None None None (Some true) None) x).
      split.
      * apply in_map_iff. exists x. rewrite Ex. auto.
      * exact Ex.
  - rewrite E1. destruct db as [l us]. simpl in *. f_equal.
    symmetry. apply map_sel_none. exact E1.
Qed.

(** X16: when [bulkUpdateTasks] answers with an error, either it is a 400
    for missing or empty [taskIds], or a 500 for a missing [updates], both
    with the store unchanged, or a 500 for a rejected [updateMany], after
    which each matched task is either unchanged or updated, each
    independently. *)
Theorem bulkUpdateTasks_error (db : Db) (now : Z) (uid : nat)
    (taskIds : option (list nat)) (upd : option UpdateDoc) (w : WriteOutcome)
    (code : Z) (m : string) :
  snd (bulkUpdateTasks db now uid taskIds upd w) = ErrorResponse code m ->
  (code = 400 /\ (taskIds = None \/ taskIds = Some []) /\
   fst (bulkUpdateTasks db now uid taskIds upd w) = db) \/
  (code = 500 /\ taskIds <> None /\ taskIds <> Some [] /\ upd = None /\
   fst (bulkUpdateTasks db now uid taskIds upd w) = db) \/
  (code = 500 /\ exists ids d msg applied,
     taskIds = Some ids /\ ids <> [] /\ upd = Some d /\ w = WriteFail msg applied /\
     users (fst (bulkUpdateTasks db now uid taskIds upd w)) = users db /\
     Forall2 (fun x y => y = x \/
                (existsb (Nat.eqb (task_id x)) ids && Nat.eqb (userId x) uid = true /\
                 y = apply_update now (effective_set (delete_userId d)) x))
             (tasks db) (tasks (fst (bulkUpdateTasks db now uid taskIds upd w)))).
Proof.
  unfold bulkUpdateTasks.
  destruct taskIds as [[|i l]|]; intros H.
  - inversion H; subst. left. auto.
  - destruct upd as [d|].
    + destruct w as [|msg applied]; cbn [snd] in H; inversion H; subst.
      right. right. split; [reflexivity|].
      exists (i :: l), d, msg, applied.
      repeat split; try discriminate; try reflexivity. cbn [fst tasks].
      induction (tasks db) as [|x r IH]; cbn [map]; constructor; [|exact IH].
      destruct (existsb _ _ && _) eqn:E; cbn [andb]; [|left; reflexivity].
      destruct (applied (task_id x)); [right; split; reflexivity |
                                       left; reflexivity].
    + inversion H; subst. right. left. repeat split; discriminate.
  - inversion H; subst. left. auto.
Qed.

Lemma ids_filter_nodup (l : list Task) (p : Task -> bool) :
  NoDup (map task_id l) -> NoDup (map task_id (filter p l)).
Proof.
  intros Hnd. induction l as [|a l IH]; [constructor|].
  simpl in Hnd. apply NoDup_cons_iff in Hnd as [Hn Hnd'].
  specialize (IH Hnd'). simpl.
  destruct (p a); [|exact IH]. simpl. constructor; [|exact IH].
  rewrite in_map_iff. intros [x [Hx Hin]]. apply filter_In in Hin as [Hin _].
  apply Hn. rewrite <- Hx. apply in_map. exact Hin.
Qed.

(** X17: the counts [bulkUpdateTasks] reports are bounded: no more
    documents modified than matched, and (task ids unique) no more matched
    than ids were sent. *)
Theorem bulkUpdateTasks_counts (db db' : Db) (now : Z) (uid : nat) (taskIds : list nat)
    (upd : option UpdateDoc) (w : WriteOutcome) (m k : Z) :
  NoDup (ids db) ->
  bulkUpdateTasks db now uid (Some taskIds) upd w = (db', BulkOk m k) ->
  0 <= m <= k /\ k <= Z.of_nat (List.length taskIds).
Proof.
  intros Hnd. unfold bulkUpdateTasks.
  destruct taskIds as [|i l]; [discriminate|].
  destruct upd as [d|]; [|discriminate].
  destruct w as [|msg applied]; [|discriminate].
  intros H; inversion H; subst; clear H.
  set (sel := fun x => existsb (Nat.eqb (task_id x)) (i :: l) && Nat.eqb (userId x) uid).
  split; [split; [lia|]|].
  - apply Nat2Z.inj_le. apply filter_length_le.
  - apply Nat2Z.inj_le. rewrite <- (length_map task_id).
    apply NoDup_incl_length; [apply ids_filter_nodup; exact Hnd|].
    intros j Hj. apply in_map_iff in Hj as [x [Hx Hin]].
    apply filter_In in Hin as [_ Hs]. unfold sel in Hs.
    apply andb_true_iff in Hs as [Hs _].
    change (existsb (Nat.eqb (task_id x)) (i :: l) = true) in Hs.
    apply existsb_exists in Hs as [j' [Hj' E]].
    apply Nat.eqb_eq in E. subst. exact Hj'.
Qed.

(** ** [syncTasks] *)

Lemma sync_change_results (db db' : Db) (uid : nat) (fault : option string)
    (c : SaveClock) (ch : Change) rs :
  sync_change db uid fault c ch = Ok (db', rs) ->
  List.length rs = (if counted ch then 1 else 0)%nat.
Proof.
  unfold sync_change, counted. destruct (ch_type ch), fault; try discriminate;
    try (intros H; inversion H; reflexivity).
  destruct (existsb _ _); [discriminate|]. intros H; inversion H; reflexivity.
Qed.

Lemma sync_change_other (db : Db) (uid : nat) (fault : option string) (c : SaveClock)
    (ch : Change) e :
  sync_change db uid fault c ch = Throw e -> counted ch = true.
Proof. unfold sync_change, counted. destruct (ch_type ch); auto. discriminate. Qed.

Lemma sync_loop_all_present (db : Db) (uid : nat) faults clock n (cs : list Change) :
  exists rs, snd (sync_loop db uid faults clock n (map Some cs)) = Ok rs /\
             List.length rs = List.length (filter counted cs).
Proof.
  revert db n. induction cs as [|ch cs IH]; intros db n; simpl; [eauto|].
  destruct (try_catch _ _) as [db1 rs1] eqn:Hc.
  destruct (sync_loop db1 uid faults clock (S n) (map Some cs)) as [db2 r2] eqn:Hl.
  destruct (IH db1 (S n)) as [rs2 [Hr2 Hlen]]. rewrite Hl in Hr2. simpl in Hr2. subst r2.
  simpl. exists (rs1 ++ rs2). split; [reflexivity|].
  rewrite length_app, Hlen.
  destruct (sync_step_cases _ _ _ _ _ _ _ Hc) as [Ho | [_ [e [Ht ->]]]].
  - rewrite (sync_change_results _ _ _ _ _ _ _ Ho). destruct (counted ch); reflexivity.
  - rewrite (sync_change_other _ _ _ _ _ _ Ht). reflexivity.
Qed.

Lemma sync_loop_null (db : Db) (uid : nat) faults clock n (cs1 : list Change)
    (cs2 : list (option Change)) :
  sync_loop db uid faults clock n (map Some cs1 ++ None :: cs2) =
  (fst (sync_loop db uid faults clock n (map Some cs1)),
   Throw "Cannot read properties of null (reading '_id')").
Proof.
  revert db n. induction cs1 as [|ch cs1 IH]; intros db n; simpl; [reflexivity|].
  destruct (try_catch _ _) as [db1 rs1].
  rewrite IH. destruct (sync_loop db1 uid faults clock (S n) (map Some cs1)). reflexivity.
Qed.

(** X18: when the first query succeeds ([lastSyncTime] a valid date),
    [syncTasks] answers with the user's tasks modified since then and
    exactly one result (success or error) per change of type create,
    update or delete, silently skipping every change of another type; a
    missing [localChanges] gives no result. An Invalid Date or a rejected
    query answers 500 with the store unchanged. A [null] change answers
    500 after the changes before it were applied. *)
Theorem syncTasks_one_result_per_change (db : Db) (uid : nat) (since : Z)
    (faults : nat -> option string) (clock : nat -> SaveClock) :
  (forall cs, exists rs,
     snd (syncTasks db uid (Some since) None faults clock (Some (map Some cs))) =
       SyncOk (filter (fun x => Nat.eqb (userId x) uid && (since <? lastModified x))
                      (tasks db)) rs /\
     List.length rs = List.length (filter counted cs)) /\
  syncTasks db uid (Some since) None faults clock None =
    (db, SyncOk (filter (fun x => Nat.eqb (userId x) uid && (since <? lastModified x))
                        (tasks db)) []) /\
  (forall ff lc, syncTasks db uid None ff faults clock lc = (db, SyncFailed)) /\
  (forall e lc, syncTasks db uid (Some since) (Some e) faults clock lc = (db, SyncFailed)) /\
  (forall cs1 cs2,
     syncTasks db uid (Some since) None faults clock (Some (map Some cs1 ++ None :: cs2)) =
     (fst (syncTasks db uid (Some since) None faults clock (Some (map Some cs1))),
      SyncFailed)).
Proof.
  split; [|split; [reflexivity|split; [reflexivity|split; [reflexivity|]]]].
  - intros cs. destruct (sync_loop_all_present db uid faults clock 0 cs) as [rs [Hr Hlen]].
    exists rs. split; [|exact Hlen]. unfold syncTasks.
    destruct (sync_loop db uid faults clock 0 (map Some cs)) as [d r]. simpl in Hr.
    subst r. reflexivity.
  - intros cs1 cs2. unfold syncTasks. rewrite sync_loop_null.
    destruct (sync_loop_all_present db uid faults clock 0 cs1) as [rs [Hr _]].
    destruct (sync_loop db uid faults clock 0 (map Some cs1)) as [d r]. simpl in Hr.
    subst r. reflexivity.
Qed.

(** X19: [syncTasks] reports an update or a delete of a task the user
    does not own (or that does not exist) as done, and changes nothing. *)
Theorem syncTasks_reports_unowned (db : Db) (uid : nat) (since : Z)
    (faults : nat -> option string) (clock : nat -> SaveClock) (c : Change) :
  faults 0%nat = None ->
  (forall x, In x (tasks db) -> owned (ch_id c) uid x = false) ->
  (ch_type c = CUpdate ->
   syncTasks db uid (Some since) None faults clock (Some [Some c]) =
     (db, SyncOk (filter (fun x => Nat.eqb (userId x) uid && (since <? lastModified x))
                         (tasks db)) [Updated (ch_id c)])) /\
  (ch_type c = CDelete ->
   syncTasks db uid (Some since) None faults clock (Some [Some c]) =
     (db, SyncOk (filter (fun x => Nat.eqb (userId x) uid && (since <? lastModified x))
                         (tasks db)) [Deleted (ch_id c)])).
Proof.
  intros Hf Hno. destruct db as [l us]. simpl in Hno.
  split; intros Ht; simpl; unfold sync_change; rewrite Ht, Hf; simpl;
    repeat f_equal.
  - rewrite <- (map_id l) at 2. apply map_ext_in. intros x Hx. rewrite Hno; auto.
  - induction l as [|a l IH]; simpl; [reflexivity|].
    rewrite (Hno a (or_introl eq_refl)). simpl. f_equal.
    apply IH. intros x Hx. apply Hno. right. exact Hx.
Qed.

Lemma ids_snoc_nodup (l : list nat) (a : nat) :
  NoDup l -> ~ In a l -> NoDup (l ++ [a]).
Proof.
  induction l as [|b l IH]; simpl; intros Hnd Hn.
  - constructor; [intros []|constructor].
  - inversion Hnd; subst. constructor.
    + intros Hin. apply in_app_or in Hin as [Hin | [Hin | []]]; auto.
    + apply IH; auto.
Qed.

Lemma fresh_id_new (db : Db) : ~ In (fresh_id db) (ids db).
Proof.
  unfold fresh_id, ids.
  assert (H : forall l : list nat, forall i, In i l -> (i <= fold_right Nat.max 0 l)%nat).
  { induction l as [|a l IH]; simpl; [contradiction|].
    intros i [<- | Hi]; [lia|]. specialize (IH i Hi). lia. }
  intros Hin. apply H in Hin. lia.
Qed.

Lemma sync_change_nodup (db db' : Db) (uid : nat) (fault : option string)
    (c : SaveClock) (ch : Change) rs :
  NoDup (ids db) -> sync_change db uid fault c ch = Ok (db', rs) -> NoDup (ids db').
Proof.
  unfold sync_change, ids. intros Hnd.
  destruct (ch_type ch), fault; try discriminate;
    try (intros H; inversion H; subst; exact Hnd).
  - destruct (existsb _ _) eqn:E; [discriminate|]. intros H; inversion H; subst. simpl.
    rewrite map_app. simpl. apply ids_snoc_nodup; [exact Hnd|].
    intros Hin. apply in_map_iff in Hin as [x [Hx Hin]].
    assert (Hex : existsb (fun y => Nat.eqb (task_id y)
                    match ch_data_id ch with Some i => i | None => fresh_id db end)
                    (tasks db) = true).
    { apply existsb_exists. exists x. split; [exact Hin|]. apply Nat.eqb_eq. exact Hx. }
    rewrite Hex in E. discriminate.
  - intros H; inversion H; subst. simpl.
    rewrite ids_map_same; [exact Hnd|]. intros x. destruct (owned _ _ x); reflexivity.
  - intros H; inversion H; subst. simpl. apply ids_filter_nodup. exact Hnd.
Qed.

Lemma sync_loop_nodup (db : Db) (uid : nat) faults clock n cs :
  NoDup (ids db) -> NoDup (ids (fst (sync_loop db uid faults clock n cs))).
Proof.
  revert db n. induction cs as [|[ch|] cs IH]; intros db n Hnd; simpl; try exact Hnd.
  destruct (try_catch _ _) as [db1 rs1] eqn:Hc.
  assert (Hnd1 : NoDup (ids db1)).
  { destruct (sync_step_cases _ _ _ _ _ _ _ Hc) as [Ho | [-> _]]; [|exact Hnd].
    exact (sync_change_nodup _ _ _ _ _ _ _ Hnd Ho). }
  specialize (IH db1 (S n) Hnd1).
  destruct (sync_loop db1 uid faults clock (S n) cs) as [db2 r2]. exact IH.
Qed.

(** X20: every write of the task controller keeps task ids unique: if no
    two stored tasks share an [_id] before [updateTask], [archiveTask],
    [deleteTask], [bulkUpdateTasks] or [syncTasks], none do after. *)
Theorem controllers_keep_ids_unique (db : Db) (uid : nat) :
  NoDup (ids db) ->
  (forall now taskId d, NoDup (ids (fst (updateTask db now taskId uid d)))) /\
  (forall now taskId a, NoDup (ids (fst (archiveTask db now taskId uid a)))) /\
  (forall taskId, NoDup (ids (fst (deleteTask db taskId uid)))) /\
  (forall now taskIds upd w, NoDup (ids (fst (bulkUpdateTasks db now uid taskIds upd w)))) /\
  (forall lst ff faults clock lc, NoDup (ids (fst (syncTasks db uid lst ff faults clock lc)))).
Proof.
  intros Hnd.
  assert (Hupd : forall now taskId d, NoDup (ids (fst (updateTask db now taskId uid d)))).
  { intros now taskId d. unfold updateTask, ids.
    destruct (existsb _ _); simpl; [|exact Hnd].
    rewrite ids_map_same; [exact Hnd|]. intros x. destruct (_ && _); reflexivity. }
  repeat split.
  - exact Hupd.
  - intros now taskId a. unfold archiveTask.
    pose proof (Hupd now taskId (mkUpdateDoc (mkUpdateBody None None None (Some a) None) None))
      as H.
    destruct (updateTask _ _ _ _ _) as [db' []]; exact H.
  - intros taskId. unfold deleteTask, ids.
    destruct (existsb _ _); simpl; [|exact Hnd]. apply ids_filter_nodup. exact Hnd.
  - intros now [taskIds|] upd w; [|exact Hnd]. unfold bulkUpdateTasks.
    destruct taskIds as [|i l]; [exact Hnd|].
    destruct upd as [d|]; [|exact Hnd].
    destruct w; unfold ids; simpl;
      (rewrite ids_map_same; [exact Hnd|]); intros x;
      [destruct (_ && _) | destruct (_ && _ && _)]; reflexivity.
  - intros lst ff faults clock lc.
    destruct (syncTasks_store db uid lst ff faults clock lc) as [-> | [cs [-> _]]];
      [exact Hnd|].
    apply sync_loop_nodup. exact Hnd.
Qed.

(** ** Documents with part_004's fields *)








(** ** [sendOverdueAlerts]: the grouping stage *)

Lemma grp_snoc_other (p : list Task) (t : Task) (k : nat) :
  userId t <> k -> grp (p ++ [t]) k = grp p k.
Proof.
  intros H. unfold grp. rewrite filter_app. simpl.
  apply Nat.eqb_neq in H. rewrite H, app_nil_r. reflexivity.
Qed.

Lemma add_to_group_old (K : list nat) (p : list Task) (t : Task) :
  NoDup K -> In (userId t) K ->
  add_to_group (userId t) t (map (grp p) K) = map (grp (p ++ [t])) K.
Proof.
  induction K as [|k K IH]; intros Hnd Hin; [destruct Hin|].
  inversion Hnd as [|? ? Hk HK]; subst. simpl.
  destruct (Nat.eqb k (userId t)) eqn:E.
  - apply Nat.eqb_eq in E. subst k. f_equal.
    + unfold grp. rewrite filter_app. simpl. rewrite Nat.eqb_refl. reflexivity.
    + apply map_ext_in. intros k' Hk'. symmetry. apply grp_snoc_other.
      intros He. rewrite <- He in Hk'. contradiction.
  - apply Nat.eqb_neq in E. f_equal.
    + symmetry. apply grp_snoc_other. auto.
    + apply IH; [exact HK|]. destruct Hin as [-> | Hin]; [contradiction | exact Hin].
Qed.

Lemma add_to_group_new (K : list nat) (p : list Task) (t : Task) :
  ~ In (userId t) K -> filter (fun x => Nat.eqb (userId x) (userId t)) p = [] ->
  add_to_group (userId t) t (map (grp p) K) = map (grp (p ++ [t])) (K ++ [userId t]).
Proof.
  intros Hn Hp. induction K as [|k K IH]; simpl.
  - unfold grp. rewrite filter_app, Hp. simpl. rewrite Nat.eqb_refl. reflexivity.
  - simpl in Hn. destruct (Nat.eqb k (userId t)) eqn:E.
    + apply Nat.eqb_eq in E. exfalso. auto.
    + apply Nat.eqb_neq in E. f_equal.
      * symmetry. apply grp_snoc_other. auto.
      * apply IH. auto.
Qed.

Lemma group_fold (l p : list Task) (K : list nat) :
  NoDup K -> (forall k, In k K <-> exists x, In x p /\ userId x = k) ->
  exists K', NoDup K' /\ (forall k, In k K' <-> exists x, In x (p ++ l) /\ userId x = k) /\
    fold_left (fun gs t => add_to_group (userId t) t gs) l (map (grp p) K)
    = map (grp (p ++ l)) K'.
Proof.
  revert p K. induction l as [|a l IH]; intros p K Hnd HK; simpl.
  - exists K. rewrite app_nil_r. auto.
  - destruct (in_dec Nat.eq_dec (userId a) K) as [Hin | Hnin].
    + rewrite (add_to_group_old K p a Hnd Hin).
      destruct (IH (p ++ [a]) K Hnd) as [K' [H1 [H2 H3]]].
      * intros k. rewrite HK. split.
        -- intros [x [Hx Hk]]. exists x. split; [apply in_or_app; left|]; assumption.
        -- intros [x [Hx Hk]]. apply in_app_or in Hx as [Hx | [<- | []]]; [eauto|].
           subst k. apply HK in Hin. exact Hin.
      * exists K'. rewrite <- app_assoc in H2, H3. auto.
    + rewrite (add_to_group_new K p a Hnin).
      * destruct (IH (p ++ [a]) (K ++ [userId a])) as [K' [H1 [H2 H3]]].
        -- apply ids_snoc_nodup; assumption.
        -- intros k. rewrite in_app_iff, HK. simpl. split.
           ++ intros [[x [Hx Hk]] | [Hk | []]].
              ** exists x. split; [apply in_or_app; left|]; assumption.
              ** exists a. split; [apply in_or_app; right; left; reflexivity | exact Hk].
           ++ intros [x [Hx Hk]]. apply in_app_or in Hx as [Hx | [<- | []]]; eauto.
        -- exists K'. rewrite <- app_assoc in H2, H3. auto.
      * destruct (filter _ p) as [|x r] eqn:E; [reflexivity|].
        exfalso. apply Hnin. apply HK.
        assert (Hx : In x (filter (fun x => Nat.eqb (userId x) (userId a)) p))
          by (rewrite E; left; reflexivity).
        apply filter_In in Hx as [Hx Hk]. apply Nat.eqb_eq in Hk. eauto.
Qed.

Lemma group_by_user_shape (l : list Task) :
  exists K, NoDup K /\ (forall k, In k K <-> exists x, In x l /\ userId x = k) /\
    group_by_user l = map (grp l) K.
Proof.
  destruct (group_fold l [] [] (NoDup_nil _)) as [K [H1 [H2 H3]]].
  - intros k. simpl. split; [contradiction | intros [x [[] _]]].
  - exists K. simpl in H2, H3. auto.
Qed.

Lemma find_user_id (db : Db) (k : nat) (u : User) :
  find_user db k = Some u -> user_id u = k /\ In u (users db).
Proof.
  unfold find_user. intros H. apply find_some in H as [Hin Hk].
  apply Nat.eqb_eq in Hk. auto.
Qed.



(** X22: [sendOverdueAlerts] alerts each user at most once per run. *)
Theorem sendOverdueAlerts_distinct (now : Z) (db : Db) :
  NoDup (map (fun a => user_id (fst a)) (sendOverdueAlerts now db)).
Proof.
  unfold sendOverdueAlerts.
  destruct (group_by_user_shape (filter (overdue_match now) (tasks db))) as [K [Hnd [_ ->]]].
  rewrite flat_map_concat_map, map_map, <- flat_map_concat_map.
  induction K as [|k K IH]; simpl; [constructor|].
  inversion Hnd as [|? ? Hk HK]; subst.
  destruct (find_user db k) as [u|] eqn:Hf; simpl; [|apply IH; exact HK].
  destruct (wants_email_ns u); simpl; [|apply IH; exact HK].
  constructor; [|apply IH; exact HK].
  destruct (find_user_id _ _ _ Hf) as [Hid _]. rewrite Hid.
  intros Hin. apply in_map_iff in Hin as [a [Ha Hin]].
  apply in_flat_map in Hin as [k' [Hk' Hin]]. simpl in Hin.
  destruct (find_user db k') as [u'|] eqn:Hf'; [|destruct Hin].
  destruct (wants_email_ns u'); [|destruct Hin].
  destruct Hin as [<- | []]. simpl in Ha.
  destruct (find_user_id _ _ _ Hf') as [Hid' _]. congruence.
Qed.

(** ** [sendDailySummaries] *)

Lemma summary_total (tz now : Z) (db : Db) (uid : nat) :
  totalTasks (generateUserSummary tz now db uid)
  = countDocuments db uid (fun t => negb (isArchived t)).
Proof. reflexivity. Qed.

(** X23: [sendDailySummaries] mails user [u] its summary exactly when
    [u]'s email preference is not [false] and [u] owns at least one
    non-archived task. *)
Theorem sendDailySummaries_spec (tz now : Z) (db : Db) (u : User) (s : Summary) :
  In (u, s) (sendDailySummaries tz now db) <->
  In u (users db) /\ wants_email_ns u = true /\
  s = generateUserSummary tz now db (user_id u) /\
  exists t, In t (tasks db) /\ userId t = user_id u /\ isArchived t = false.
Proof.
  assert (Hpos : forall uid, (0 <? totalTasks (generateUserSummary tz now db uid)) = true <->
                 exists t, In t (tasks db) /\ userId t = uid /\ isArchived t = false).
  { intros uid. rewrite summary_total. unfold countDocuments.
    rewrite Z.ltb_lt, <- Nat2Z.inj_0, <- Nat2Z.inj_lt, <- len_filter_pos.
    split.
    - intros [x [Hx Hp]]. apply andb_true_iff in Hp as [H1 H2].
      apply Nat.eqb_eq in H1. apply negb_true_iff in H2. eauto.
    - intros [x [Hx [H1 H2]]]. exists x. split; [exact Hx|].
      rewrite H1, Nat.eqb_refl, H2. reflexivity. }
  unfold sendDailySummaries. rewrite in_flat_map. split.
  - intros [u' [Hu Hin]].
    destruct (wants_email_ns u') eqn:Hw; [|destruct Hin].
    destruct (0 <? _) eqn:Ht; [|destruct Hin].
    destruct Hin as [Heq | []]. inversion Heq; subst u' s.
    repeat split; auto. apply Hpos. exact Ht.
  - intros [Hu [Hw [Hs Ht]]]. exists u. split; [exact Hu|].
    rewrite Hw. apply Hpos in Ht. rewrite Ht. left. rewrite Hs. reflexivity.
Qed.

(** ** [sendDailyDigest] *)

Lemma setHours_start_end (tz now : Z) :
  setHours tz (setHours tz now 0 0 0 0) 23 59 59 999 = setHours tz now 0 0 0 0 + day_ms - 1.
Proof.
  unfold setHours, day_ms.
  set (D := 24 * 60 * 60 * 1000).
  assert (HD : 0 < D) by (unfold D; lia).
  pose proof (Z.div_mod (now + tz) D ltac:(lia)) as Hdm.
  replace (now - (now + tz) mod D + (((0 * 60 + 0) * 60 + 0) * 1000 + 0) + tz)
    with (((now + tz) / D) * D) by lia.
  rewrite Z.mod_mul by lia. unfold D. lia.
Qed.

Lemma setHours_next_day (tz now : Z) :
  setHours tz (now + day_ms) 0 0 0 0 = setHours tz now 0 0 0 0 + day_ms.
Proof.
  unfold setHours.
  replace (now + day_ms + tz) with ((now + tz) + 1 * day_ms) by lia.
  rewrite Z_mod_plus_full. lia.
Qed.

(** X24: because the overdue filter holds the [today] Date, which the
    due-today filter has already moved to 23:59:59.999, every task of a
    digest's due-today list is also in its overdue list; the due-tomorrow
    list shares no task with either. *)
Theorem sendDailyDigest_lists (tz now : Z) (db : Db) (uid : nat)
    (dueToday dueTomorrow overdue : list Task) :
  sendDailyDigest tz now db uid = Some (dueToday, dueTomorrow, overdue) ->
  (forall t, In t dueToday -> In t overdue) /\
  (forall t, In t dueTomorrow -> ~ In t overdue) /\
  (forall t, In t dueToday -> ~ In t dueTomorrow).
Proof.
  unfold sendDailyDigest.
  destruct (find_user db uid) as [u|]; [|discriminate].
  destruct (negb (wants_email_cr u)); [discriminate|].
  rewrite setHours_next_day, !setHours_start_end.
  set (sod := setHours tz now 0 0 0 0).
  intros H.
  assert (H' : forall A (a b c : list A) r,
             match a, b, c with [], [], [] => None | _, _, _ => Some (a, b, c) end = Some r ->
             r = (a, b, c)).
  { intros A [|? ?] [|? ?] [|? ?] r Hr; inversion Hr; reflexivity. }
  apply H' in H. inversion H; subst; clear H H'.
  repeat split.
  - intros t Ht. apply filter_In in Ht as [Hin Ht]. apply filter_In. split; [exact Hin|].
    repeat (apply andb_true_iff in Ht as [Ht ?]). rewrite Ht, H2, H1, H. reflexivity.
  - intros t Ht Ho. apply filter_In in Ht as [_ Ht]. apply filter_In in Ho as [_ Ho].
    repeat (apply andb_true_iff in Ht as [Ht ?]). apply andb_true_iff in Ho as [_ Ho].
    unfold date_gte, date_lt in *. destruct (dueDate t); [|discriminate].
    repeat match goal with
           | H : (_ <=? _) = true |- _ => apply Z.leb_le in H
           | H : (_ <? _) = true |- _ => apply Z.ltb_lt in H
           end.
    unfold day_ms in *. lia.
  - intros t Ht Hm. apply filter_In in Ht as [_ Ht]. apply filter_In in Hm as [_ Hm].
    repeat (apply andb_true_iff in Ht as [Ht ?]). repeat (apply andb_true_iff in Hm as [Hm ?]).
    unfold date_gte, date_lt in *. destruct (dueDate t); [|discriminate].
    repeat match goal with
           | H : (_ <=? _) = true |- _ => apply Z.leb_le in H
           | H : (_ <? _) = true |- _ => apply Z.ltb_lt in H
           end.
    unfold day_ms in *. lia.
Qed.

(** ** Instances of the properties above

    A store with task 1 of user 7 (reminder due at 1000), a cancelled task 2
    of user 8 (reminder due at 900, carrying part_004's [sent] and
    [datetime]), task 3 of a user with no document, and task 4 of user 8
    due on 2024-06-15 at 08:00 UTC. *)

Definition x_user7 : User := mkUser 7 (Some "seven@example.com"%string) None.
Definition x_user8 : User := mkUser 8 (Some "eight@example.com"%string) (Some true).

Definition x_task1 : Task :=
  mkTask 1 7 Pending (Some 500) false
    (mkReminder (Some true) (Some 1000) (Some false) None None) 100 2 100.
Definition x_task2 : Task :=
  mkTask 2 8 Cancelled None false
    (mkReminder (Some true) (Some 900) (Some false) (Some false) (Some 900)) 100 2 100.
Definition x_task3 : Task :=
  mkTask 3 9 InProgress None false
    (mkReminder (Some true) (Some 900) (Some false) None None) 100 2 100.
Definition x_task4 : Task :=
  mkTask 4 8 Pending (Some 1718445600000) false
    (mkReminder (Some false) None (Some false) None None) 100 2 100.

Definition x_db : Db := mkDb [x_task1; x_task2; x_task3; x_task4] [x_user7; x_user8].


Definition x_now : Z := 1718452800000.

Definition x_faults : Faults := mkFaults None None.

Definition x_clock : SaveClock := mkClock 1500 1500.

Definition x_body : UpdateBody := mkUpdateBody None (Some Completed) None None None.

Definition x_doc : UpdateDoc := mkUpdateDoc x_body None.

(** [{ userId: 8 }] and [{ $set: { userId: 8 } }] *)
Definition x_move_top : UpdateDoc :=
  mkUpdateDoc (mkUpdateBody (Some 8%nat) None None None None) None.
Definition x_move_set : UpdateDoc :=
  mkUpdateDoc (mkUpdateBody None None None None None)
              (Some (mkUpdateBody (Some 8%nat) None None None None)).

Lemma x_db_nodup : NoDup (ids x_db).
Proof. repeat constructor; simpl; intuition discriminate. Qed.


(** X25: the [userId] a task controller write leaves is not always the
    caller's: [syncTasks] passes an update change's [data] as it is, so
    [{ userId: 8 }] moves user 7's task 1 to user 8; [updateTask] and
    [bulkUpdateTasks] delete only the top-level [userId], so
    [{ $set: { userId: 8 } }] moves it too. *)
Lemma controllers_reassign_owner :
  map userId (tasks (fst (syncTasks x_db 7 (Some 0) None (fun _ => None) (fun _ => x_clock)
                            (Some [Some (mkChange CUpdate (Some 1%nat) None None x_move_top)]))))
    = [8; 8; 9; 8]%nat /\
  map userId (tasks (fst (updateTask x_db 1500 1 7 x_move_set))) = [8; 8; 9; 8]%nat /\
  map userId (tasks (fst (bulkUpdateTasks x_db 1500 7 (Some [1%nat]) (Some x_move_set) WriteOk)))
    = [8; 8; 9; 8]%nat /\
  map userId (tasks (fst (updateTask x_db 1500 1 7 x_move_top))) = [7; 8; 9; 8]%nat.
Proof. repeat split; vm_compute; reflexivity. Qed.

Lemma getReminderStats_partition_witness :
  activeReminders (getReminderStats 950 x_db) + sentReminders (getReminderStats 950 x_db)
  = totalReminders (getReminderStats 950 x_db).
Proof.
  apply getReminderStats_partition.
  intros t Ht _. simpl in Ht.
  destruct Ht as [<- | [<- | [<- | [<- | []]]]]; discriminate.
Defined.

Lemma getReminderStats_overdue_mono_witness :
  overdueReminders (getReminderStats 950 x_db) <= overdueReminders (getReminderStats 2000 x_db).
Proof. apply getReminderStats_overdue_mono. lia. Defined.

Lemma scheduleReminder_then_scan_witness :
  marked (fst (checkAndSendReminders 800 (fun _ => true) (fun _ => Some x_clock)
                 (snd (scheduleReminder x_faults x_clock x_db (task_id x_task1) 1000)))) 1 /\
  (wants_email_ns x_user7 = true ->
   In (Notify 1 true)
      (snd (checkAndSendReminders 800 (fun _ => true) (fun _ => Some x_clock)
              (snd (scheduleReminder x_faults x_clock x_db (task_id x_task1) 1000))))).
Proof.
  apply (scheduleReminder_then_scan x_faults x_clock x_db x_task1 x_user7 1000 800
           (fun _ => true) (fun _ => Some x_clock));
    try reflexivity.
  - unfold reminderWindow. lia.
  - discriminate.
Defined.

Lemma cancelReminder_then_scan_witness :
  success (fst (cancelReminder x_faults x_clock x_db 1)) = true /\
  forall now deliver save i b,
    In (Notify i b) (snd (checkAndSendReminders now deliver save
                           (snd (cancelReminder x_faults x_clock x_db 1)))) \/
    In (Notify i b) (snd (checkReminders now deliver save
                           (snd (cancelReminder x_faults x_clock x_db 1)))) ->
    i <> 1%nat.
Proof.
  assert (H : success (fst (cancelReminder x_faults x_clock x_db 1)) = true)
    by (vm_compute; reflexivity).
  split; [exact H|]. exact (cancelReminder_then_scan x_faults x_clock x_db 1 H).
Defined.

Lemma archiveTask_then_scan_witness :
  snd (archiveTask x_db 1500 1 7 true) <> None /\
  forall now' deliver save i b,
    In (Notify i b) (snd (checkAndSendReminders now' deliver save
                           (fst (archiveTask x_db 1500 1 7 true)))) \/
    In (Notify i b) (snd (checkReminders now' deliver save
                           (fst (archiveTask x_db 1500 1 7 true)))) ->
    i <> 1%nat.
Proof.
  assert (H : snd (archiveTask x_db 1500 1 7 true) <> None) by (vm_compute; discriminate).
  split; [exact H|].
  exact (archiveTask_then_scan x_db 1500 1 7 x_db_nodup H).
Defined.

Lemma missing_owner_untouched_witness :
  populate x_db x_task3 = None /\
  (forall b, ~ In (Notify 3 b)
                 (snd (checkAndSendReminders 1000 (fun _ => true) (fun _ => Some x_clock) x_db))) /\
  (forall b, ~ In (Notify 3 b)
                 (snd (checkReminders 1000 (fun _ => true) (fun _ => Some x_clock) x_db))) /\
  In x_task3 (tasks (fst (checkAndSendReminders 1000 (fun _ => true)
                            (fun _ => Some x_clock) x_db))) /\
  In x_task3 (tasks (fst (checkReminders 1000 (fun _ => true) (fun _ => Some x_clock) x_db))).
Proof.
  assert (H : populate x_db x_task3 = None) by reflexivity.
  split; [exact H|].
  apply (missing_owner_untouched 1000 _ _ x_db x_task3 x_db_nodup); [|exact H].
  simpl. right. right. left. reflexivity.
Defined.


Lemma archiveTask_round_trip_witness :
  fst (archiveTask (fst (archiveTask x_db 1500 1 7 true)) 2000 1 7 false) =
  {| tasks := map (fun x => if Nat.eqb (task_id x) 1 && Nat.eqb (userId x) 7
                            then apply_update 2000 (mkUpdateBody None None None None None) x
                            else x) (tasks x_db);
     users := users x_db |}.
Proof.
  apply archiveTask_round_trip.
  intros x Hx _ _. simpl in Hx.
  destruct Hx as [<- | [<- | [<- | [<- | []]]]]; reflexivity.
Defined.

Lemma bulkUpdateTasks_error_witness :
  snd (bulkUpdateTasks x_db 1500 7 (Some [1%nat; 4%nat]) (Some x_doc)
         (WriteFail "E11000" (fun i => Nat.eqb i 1))) =
    ErrorResponse 500 "Failed to update tasks" /\
  users (fst (bulkUpdateTasks x_db 1500 7 (Some [1%nat; 4%nat]) (Some x_doc)
                (WriteFail "E11000" (fun i => Nat.eqb i 1)))) = users x_db.
Proof.
  assert (H : snd (bulkUpdateTasks x_db 1500 7 (Some [1%nat; 4%nat]) (Some x_doc)
                     (WriteFail "E11000" (fun i => Nat.eqb i 1))) =
              ErrorResponse 500 "Failed to update tasks") by reflexivity.
  split; [exact H|].
  destruct (bulkUpdateTasks_error _ _ _ _ _ _ _ _ H)
    as [[Hc _] | [[_ [_ [_ [Hu _]]]] | [_ [ids [d [msg [applied [_ [_ [_ [_ [Hs _]]]]]]]]]]]].
  - discriminate Hc.
  - discriminate Hu.
  - exact Hs.
Defined.

Lemma bulkUpdateTasks_counts_witness :
  0 <= 1 <= 1 /\ 1 <= Z.of_nat (List.length [1%nat; 5%nat]).
Proof.
  apply (bulkUpdateTasks_counts x_db (fst (bulkUpdateTasks x_db 1500 7 (Some [1%nat; 5%nat])
                                             (Some x_doc) WriteOk))
           1500 7 [1%nat; 5%nat] (Some x_doc) WriteOk 1 1 x_db_nodup).
  vm_compute. reflexivity.
Defined.

Lemma syncTasks_reports_unowned_witness :
  syncTasks x_db 7 (Some 0) None (fun _ => None) (fun _ => x_clock)
            (Some [Some (mkChange CUpdate (Some 2%nat) None None x_doc)])
  = (x_db, SyncOk [x_task1] [Updated (Some 2%nat)]).
Proof.
  assert (Hno : forall x, In x (tasks x_db) ->
                owned (ch_id (mkChange CUpdate (Some 2%nat) None None x_doc)) 7 x = false).
  { intros x Hx. simpl in Hx. destruct Hx as [<- | [<- | [<- | [<- | []]]]]; reflexivity. }
  rewrite (proj1 (syncTasks_reports_unowned x_db 7 0 (fun _ => None) (fun _ => x_clock)
                    (mkChange CUpdate (Some 2%nat) None None x_doc) eq_refl Hno) eq_refl).
  reflexivity.
Defined.

Lemma controllers_keep_ids_unique_witness :
  NoDup (ids (fst (syncTasks x_db 7 (Some 0) None (fun _ => None) (fun _ => x_clock)
                     (Some [Some (mkChange CCreate None (Some 1%nat) None x_doc);
                            Some (mkChange CDelete (Some 1%nat) None None x_doc)])))).
Proof.
  destruct (controllers_keep_ids_unique x_db 7 x_db_nodup) as [_ [_ [_ [_ H]]]].
  apply H.
Defined.


Lemma sendDailyDigest_lists_witness :
  sendDailyDigest 0 x_now x_db 8 = Some ([x_task4], [], [x_task4]) /\
  (forall t, In t [x_task4] -> In t [x_task4]) /\
  (forall t, In t [] -> ~ In t [x_task4]) /\
  (forall t, In t [x_task4] -> ~ @In Task t []).
Proof.
  assert (H : sendDailyDigest 0 x_now x_db 8 = Some ([x_task4], [], [x_task4]))
    by (vm_compute; reflexivity).
  split; [exact H | exact (sendDailyDigest_lists 0 x_now x_db 8 _ _ _ H)].
Defined.
